(** * proba.py: position sizing, trade validation, the position ledger and
      the statistics of closed trades

    A shallow embedding of the trading core of [proba.py]: the classes
    [RiskManagement], [MarketDataManager] (ATR), [PortfolioTracker] (closing
    and partial closing of positions), [PositionCalculator] (opening a
    position) and [StatisticsTab] (statistics of closed trades).

    Conventions of the embedding.
    - The arithmetic of [RiskManagement] and the path that opens a position
      are modelled on the values Python has: a [float] is an IEEE 754
      binary64 number ([F64.t], with its zeros, infinities and NaN, every
      operation rounded to nearest, ties to even), an [int] is an unbounded
      integer that SQLite accepts only within 64 bits, and a string is a
      sequence of code points.  These are the modules [F64], [Unicode] and
      [Binary64].
    - The operations on the rows of the table (closing, splitting,
      modifying, listing) and the statistics are modelled with a number in
      place of each float: the rational [Q] that the float holds, with exact
      arithmetic.  What is proved there is about identities, quantities,
      statuses and the order of the tests.  A [float] that may be NaN there
      (the ATR series of pandas) is a [pyfloat].
    - A [try: ... except Exception] block is a computation in the error monad
      [result] followed by [catch]; the exceptions the code can raise are
      written out.
    - The [portfolio] table of SQLite is the list of its rows in insertion
      order together with the AUTOINCREMENT counter; [datetime.now()] is a
      parameter [now] of the operations that read the clock.
    - Message boxes, labels and tree views are left out unless an operation's
      outcome is only visible through them. *)

From Stdlib Require Import ZArith QArith Qabs Qround Qpower List String Ascii Bool Lia.
From Stdlib Require Import SpecFloat.
Import ListNotations.

Local Open Scope Q_scope.

(** ** Python values and exceptions *)

Module Py.

Inductive exn : Type :=
| ZeroDivisionError
| IndexError
| ValueError (msg : string)
| OverflowError
| IntegrityError
| UnicodeEncodeError.

Inductive result (A : Type) : Type :=
| Ok (a : A)
| Raise (e : exn).

Arguments Ok {A} a.
Arguments Raise {A} e.

Definition bind {A B : Type} (m : result A) (k : A -> result B) : result B :=
  match m with
  | Ok a => k a
  | Raise e => Raise e
  end.

(** [try: body except Exception as e: handler e] *)
Definition catch {A : Type} (body : result A) (handler : exn -> A) : A :=
  match body with
  | Ok a => a
  | Raise e => handler e
  end.

(** [a < b], [a > b], [a <= b], [a == b] on numbers *)
Definition lt (a b : Q) : bool := negb (Qle_bool b a).
Definition gt (a b : Q) : bool := lt b a.
Definition le (a b : Q) : bool := Qle_bool a b.
Definition eq (a b : Q) : bool := Qeq_bool a b.

(** [a / b]: true division raises on a zero divisor. *)
Definition truediv (a b : Q) : result Q :=
  if eq b 0 then Raise ZeroDivisionError else Ok (a / b).

(** [int(x)]: truncation toward zero. *)
Definition int (x : Q) : Z := Z.quot (Qnum x) (Zpos (Qden x)).

(** [xs[0]] *)
Definition first {A : Type} (xs : list A) : result A :=
  match xs with
  | [] => Raise IndexError
  | x :: _ => Ok x
  end.

(** [sum(xs)] *)
Definition sum (xs : list Q) : Q := fold_left Qplus xs 0.

(** [max(xs)] of a non-empty list, given as head and tail *)
Definition max (x : Q) (xs : list Q) : Q :=
  fold_left (fun m y => if lt m y then y else m) xs x.

(** [len(xs)] as a number *)
Definition len {A : Type} (xs : list A) : Q := inject_Z (Z.of_nat (List.length xs)).

(** [float(text)] of an entry field, given as what the text denotes: [None]
    for a text that is not a number. *)
Definition float (text : option Q) : result Q :=
  match text with
  | Some q => Ok q
  | None => Raise (ValueError "could not convert string to float")
  end.

(** A number used as a condition: true unless it is zero. *)
Definition truthy (x : Q) : bool := negb (eq x 0).

(** An optional number used as a condition: [None] and zero are false. *)
Definition truthy_opt (x : option Q) : bool :=
  match x with
  | Some q => truthy q
  | None => false
  end.

End Py.

Notation "x <- m ;; k" := (Py.bind m (fun x => k))
  (at level 61, m at next level, right associativity).

(** ** Python floats: IEEE 754 binary64 *)

Module F64.

Definition prec : Z := 53.
Definition emax : Z := 1024.

(** A Python [float]: a signed zero, a signed infinity, NaN, or the number
    [(-1)^s * m * 2^e]. *)
Definition t : Type := spec_float.

Definition zero : t := S754_zero false.
Definition infinity : t := S754_infinity false.
Definition nan : t := S754_nan.

(** [x - y], [x * y]: rounded to nearest, ties to even. *)
Definition sub (x y : t) : t := SFsub prec emax x y.
Definition mul (x y : t) : t := SFmul prec emax x y.

(** The quotient of IEEE 754, defined for every divisor and rounded
    likewise. *)
Definition div (x y : t) : t := SFdiv prec emax x y.

(** [abs(x)] *)
Definition abs (x : t) : t := SFabs x.

(** [x == y], [x < y], [x <= y], [x > y]: false when either side is NaN. *)
Definition eqb (x y : t) : bool := SFeqb x y.
Definition ltb (x y : t) : bool := SFltb x y.
Definition leb (x y : t) : bool := SFleb x y.
Definition gtb (x y : t) : bool := SFltb y x.

Definition is_nan (x : t) : bool :=
  match x with
  | S754_nan => true
  | _ => false
  end.

Definition is_finite (x : t) : bool :=
  match x with
  | S754_zero _ | S754_finite _ _ _ => true
  | _ => false
  end.

(** [x / y]: Python raises on a zero divisor, of either sign. *)
Definition truediv (x y : t) : Py.result t :=
  if eqb y zero then Py.Raise Py.ZeroDivisionError else Py.Ok (div x y).

(** The float nearest to an integer. *)
Definition of_Z (n : Z) : t := binary_normalize prec emax n 0 false.

(** An [int] operand of float arithmetic: "int too large to convert to
    float" when it rounds beyond the largest float. *)
Definition of_int (n : Z) : Py.result t :=
  match of_Z n with
  | S754_infinity _ => Py.Raise Py.OverflowError
  | x => Py.Ok x
  end.

(** [float(text)] of a decimal numeral that denotes [q]: the float nearest
    to [q]. *)
Definition of_Q (q : Q) : t :=
  match Qnum q with
  | Z0 => zero
  | Zpos n => div (S754_finite false n 0) (S754_finite false (Qden q) 0)
  | Zneg n => div (S754_finite true n 0) (S754_finite false (Qden q) 0)
  end.

(** The number a float holds; [None] for an infinity and for NaN. *)
Definition to_Q (x : t) : option Q :=
  match x with
  | S754_zero _ => Some 0
  | S754_finite s m e => Some (inject_Z (cond_Zopp s (Zpos m)) * Qpower 2 e)
  | S754_infinity _ | S754_nan => None
  end.

(** [int(x)]: truncation toward zero; OverflowError on an infinity and
    ValueError on NaN. *)
Definition int (x : t) : Py.result Z :=
  match to_Q x with
  | Some q => Py.Ok (Py.int q)
  | None =>
      if is_nan x
      then Py.Raise (Py.ValueError "cannot convert float NaN to integer")
      else Py.Raise Py.OverflowError
  end.

End F64.

(** ** Python strings: sequences of code points *)

Module Unicode.

(** White space as [str.strip] sees it. *)
Definition is_space (c : N) : bool :=
  (((9 <=? c) && (c <=? 13)) || ((28 <=? c) && (c <=? 32))
   || (c =? 133) || (c =? 160) || (c =? 5760)
   || ((8192 <=? c) && (c <=? 8202))
   || (c =? 8232) || (c =? 8233) || (c =? 8239) || (c =? 8287)
   || (c =? 12288))%N.

Fixpoint lstrip (s : list N) : list N :=
  match s with
  | [] => []
  | c :: s' => if is_space c then lstrip s' else s
  end.

Fixpoint rstrip (s : list N) : list N :=
  match s with
  | [] => []
  | c :: s' =>
      match rstrip s' with
      | [] => if is_space c then [] else [c]
      | rest => c :: rest
      end
  end.

(** [s.strip()] *)
Definition strip (s : list N) : list N := rstrip (lstrip s).

(** [not s] *)
Definition is_empty (s : list N) : bool :=
  match s with
  | [] => true
  | _ :: _ => false
  end.

(** A lone surrogate, which UTF-8 cannot encode. *)
Definition is_surrogate (c : N) : bool := ((55296 <=? c) && (c <=? 57343))%N.

(** [s.encode('utf-8')] succeeds. *)
Definition encodable (s : list N) : bool :=
  forallb (fun c => negb (is_surrogate c)) s.

(** [s.upper()] on ASCII text. *)
Definition upper_ascii (s : list N) : list N :=
  map (fun c => if ((97 <=? c) && (c <=? 122))%N then (c - 32)%N else c) s.

(** The code points of an ASCII literal. *)
Fixpoint of_string (s : string) : list N :=
  match s with
  | EmptyString => []
  | String c s' => N_of_ascii c :: of_string s'
  end.

End Unicode.

(** ** class RiskManagement, on numbers

    The sizing as the operations on the table use it, with a number for each
    float; the class on floats is [Binary64.RiskManagement]. *)

Module RiskManagement.

Record t : Type := Make {
  account_balance : Q;
  max_risk_per_trade : Q
}.

(** [__init__(self, account_balance, max_risk_per_trade=0.02)] *)
Definition init (balance : Q) : t := Make balance (2 # 100).

Definition calculate_position_size_body (self : t) (entry_price stop_loss : Q)
  : Py.result Z :=
  let risk_amount := account_balance self * max_risk_per_trade self in
  let risk_per_share := Qabs (entry_price - stop_loss) in
  if Py.eq risk_per_share 0 then Py.Ok 0%Z
  else
    q <- Py.truediv risk_amount risk_per_share ;;
    Py.Ok (Py.int q).

Definition calculate_position_size (self : t) (entry_price stop_loss : Q) : Z :=
  Py.catch (calculate_position_size_body self entry_price stop_loss)
           (fun _ => 0%Z).

Record RiskMetrics : Type := {
  risk_per_share : Q;
  reward_per_share : Q;
  total_risk : Q;
  total_reward : Q;
  risk_reward_ratio : Q;
  risk_percentage : Q
}.

Definition calculate_risk_metrics_body (self : t) (position_size : Z)
  (entry_price stop_loss take_profit : Q) : Py.result RiskMetrics :=
  let risk := Qabs (entry_price - stop_loss) in
  let reward := Qabs (take_profit - entry_price) in
  let t_risk := risk * inject_Z position_size in
  let t_reward := reward * inject_Z position_size in
  ratio <- (if Py.gt risk 0 then Py.truediv reward risk else Py.Ok 0) ;;
  share <- Py.truediv t_risk (account_balance self) ;;
  Py.Ok {| risk_per_share := risk;
           reward_per_share := reward;
           total_risk := t_risk;
           total_reward := t_reward;
           risk_reward_ratio := ratio;
           risk_percentage := share * 100 |}.

(** Returns [None] when the body raises. *)
Definition calculate_risk_metrics (self : t) (position_size : Z)
  (entry_price stop_loss take_profit : Q) : option RiskMetrics :=
  Py.catch
    (m <- calculate_risk_metrics_body self position_size entry_price
            stop_loss take_profit ;; Py.Ok (Some m))
    (fun _ => None).

End RiskManagement.

(** ** The [portfolio] table *)

Module Portfolio.

(** [trade_type TEXT]: the radio buttons write 'Long' or 'Short'. *)
Inductive TradeType : Type := Long | Short.

(** [status TEXT]: 'Open' or 'Closed'. *)
Inductive Status : Type := Open | Closed.

(** One row, columns in the order of [CREATE TABLE]; a nullable column is an
    [option]; dates are seconds on the clock's scale. *)
Record Row : Type := {
  id : Z;
  symbol : string;
  entry_price : Q;
  exit_price : option Q;
  stop_loss : option Q;
  take_profit : option Q;
  quantity : Z;
  entry_date : Z;
  exit_date : option Z;
  pnl : option Q;
  trade_type : TradeType;
  status : Status;
  notes : option string;
  original_quantity : option Z
}.

(** The table: rows in insertion order and the AUTOINCREMENT sequence (the
    largest id handed out so far). *)
Record DB : Type := {
  rows : list Row;
  sequence : Z
}.

(** [SELECT ... FROM portfolio WHERE id = ?] *)
Definition select_by_id (db : DB) (position_id : Z) : list Row :=
  filter (fun r => (id r =? position_id)%Z) (rows db).

(** [SELECT ... FROM portfolio WHERE status = ?] *)
Definition select_by_status (db : DB) (s : Status) : list Row :=
  filter (fun r => match status r, s with
                   | Open, Open | Closed, Closed => true
                   | _, _ => false
                   end) (rows db).

(** [UPDATE portfolio SET ... WHERE id = ?]: the right-hand sides of [SET]
    read the row as it was before the statement. *)
Definition update_by_id (db : DB) (position_id : Z) (set : Row -> Row) : DB :=
  {| rows := map (fun r => if (id r =? position_id)%Z then set r else r) (rows db);
     sequence := sequence db |}.

(** [INSERT INTO portfolio (...)]: the id is the next of the sequence; the
    row is given without its id. *)
Definition insert (db : DB) (mk : Z -> Row) : DB :=
  let new_id := (sequence db + 1)%Z in
  {| rows := rows db ++ [mk new_id];
     sequence := new_id |}.

(** [SET exit_price = ?, exit_date = ?, pnl = ?, status = 'Closed'] *)
Definition set_closed (exit : Q) (now : Z) (p : Q) (r : Row) : Row :=
  {| id := id r;
     symbol := symbol r;
     entry_price := entry_price r;
     exit_price := Some exit;
     stop_loss := stop_loss r;
     take_profit := take_profit r;
     quantity := quantity r;
     entry_date := entry_date r;
     exit_date := Some now;
     pnl := Some p;
     trade_type := trade_type r;
     status := Closed;
     notes := notes r;
     original_quantity := original_quantity r |}.

(** [COALESCE(a, b)] *)
Definition coalesce {A : Type} (a : option A) (b : A) : A :=
  match a with
  | Some x => x
  | None => b
  end.

(** [SET quantity = ?, original_quantity = COALESCE(original_quantity, quantity)] *)
Definition set_reduced (remaining : Z) (r : Row) : Row :=
  {| id := id r;
     symbol := symbol r;
     entry_price := entry_price r;
     exit_price := exit_price r;
     stop_loss := stop_loss r;
     take_profit := take_profit r;
     quantity := remaining;
     entry_date := entry_date r;
     exit_date := exit_date r;
     pnl := pnl r;
     trade_type := trade_type r;
     status := status r;
     notes := notes r;
     original_quantity := Some (coalesce (original_quantity r) (quantity r)) |}.

End Portfolio.

(** ** class PartialCloseDialog *)

Module PartialCloseDialog.

(** The attributes the caller reads, and whether the window is gone. *)
Record t : Type := {
  quantity : Z;
  result : bool;
  destroyed : bool
}.

(** [__init__]: [quantity = 0], [result = False]. *)
Definition init : t := {| quantity := 0; result := false; destroyed := false |}.

(** What the user does with the dialog: press the close button with a text
    in the field ([None] when [int(text)] raises ValueError), or cancel. *)
Inductive event : Type :=
| Submit (text : option Z)
| Cancel.

(** [validate_and_close(self, max_quantity)]: a quantity outside
    [1 .. max_quantity] or a text that is not an integer shows an error and
    leaves the dialog open. *)
Definition validate_and_close (max_quantity : Z) (text : option Z) (self : t) : t :=
  match text with
  | Some q =>
      if ((0 <? q) && (q <=? max_quantity))%Z
      then {| quantity := q; result := true; destroyed := true |}
      else self
  | None => self
  end.

(** [cancel(self)] *)
Definition cancel (self : t) : t :=
  {| quantity := quantity self; result := false; destroyed := true |}.

(** The dialog from its creation until it is destroyed, or until the user
    stops acting on it. *)
Fixpoint run (max_quantity : Z) (events : list event) (self : t) : t :=
  match events with
  | [] => self
  | e :: rest =>
      let self' := match e with
                   | Submit text => validate_and_close max_quantity text self
                   | Cancel => cancel self
                   end in
      if destroyed self' then self' else run max_quantity rest self'
  end.

End PartialCloseDialog.

(** ** class PortfolioTracker: closing positions *)

Module PortfolioTracker.

Import Portfolio.

Definition execute_close_position_body (db : DB) (position_id : Z)
  (exit : Q) (now : Z) : Py.result DB :=
  position <- Py.first (select_by_id db position_id) ;;
  let entry := entry_price position in
  let qty := quantity position in
  let p := (exit - entry) * inject_Z qty in
  Py.Ok (update_by_id db position_id (set_closed exit now p)).

(** [execute_close_position(self, position_id, exit_price)]: on an exception
    the error is logged and shown, the table is as it was. *)
Definition execute_close_position (db : DB) (position_id : Z)
  (exit : Q) (now : Z) : DB :=
  Py.catch (execute_close_position_body db position_id exit now) (fun _ => db).

(** The row [execute_partial_close] inserts for the closed part. *)
Definition closed_lot (position : Row) (close_quantity : Z) (exit : Q)
  (now : Z) (p : Q) (new_id : Z) : Row :=
  {| id := new_id;
     symbol := symbol position;
     entry_price := entry_price position;
     exit_price := Some exit;
     stop_loss := stop_loss position;
     take_profit := take_profit position;
     quantity := close_quantity;
     entry_date := entry_date position;
     exit_date := Some now;
     pnl := Some p;
     trade_type := trade_type position;
     status := Closed;
     notes := None;
     original_quantity := Some close_quantity |}.

Definition execute_partial_close_body (db : DB) (position_id close_quantity : Z)
  (exit : Q) (now : Z) : Py.result DB :=
  position <- Py.first (select_by_id db position_id) ;;
  let entry := entry_price position in
  let total_quantity := quantity position in
  let remaining_quantity := (total_quantity - close_quantity)%Z in
  let p := match trade_type position with
           | Long => (exit - entry) * inject_Z close_quantity
           | Short => (entry - exit) * inject_Z close_quantity
           end in
  if (remaining_quantity >? 0)%Z then
    let db1 := update_by_id db position_id (set_reduced remaining_quantity) in
    Py.Ok (insert db1 (closed_lot position close_quantity exit now p))
  else
    Py.Ok (execute_close_position db position_id exit now).

(** [execute_partial_close(self, position_id, close_quantity, exit_price)] *)
Definition execute_partial_close (db : DB) (position_id close_quantity : Z)
  (exit : Q) (now : Z) : DB :=
  Py.catch (execute_partial_close_body db position_id close_quantity exit now)
           (fun _ => db).

(** A sequence of partial closes of one position, each with its quantity,
    its exit price and the time it happens. *)
Definition partial_closes (db : DB) (position_id : Z)
  (ops : list (Z * Q * Z)) : DB :=
  fold_left (fun d op => match op with
                         | (q, exit, now) =>
                             execute_partial_close d position_id q exit now
                         end) ops db.

(** [close_position(self)].  [selected] is the row selected in the tree (its
    id, symbol and displayed quantity), [current_price] what
    [get_real_time_price] returns, [close_type] the answer Yes / No / Cancel
    to "close the whole position?", [confirm] the answer to the confirmation
    of a full close, [events] what the user does with the partial-close
    dialog. *)
Definition close_position (db : DB) (selected : option (Z * string * Z))
  (current_price : option Q) (close_type : option bool) (confirm : bool)
  (events : list PartialCloseDialog.event) (now : Z) : DB :=
  match selected with
  | None => db
  | Some (position_id, _, current_quantity) =>
      match current_price with
      | Some price =>
          if Py.truthy price then
            match close_type with
            | None => db
            | Some true =>
                if confirm
                then execute_close_position db position_id price now
                else db
            | Some false =>
                let dialog := PartialCloseDialog.run current_quantity events
                                PartialCloseDialog.init in
                if PartialCloseDialog.result dialog
                   && (PartialCloseDialog.quantity dialog >? 0)%Z
                then execute_partial_close db position_id
                       (PartialCloseDialog.quantity dialog) price now
                else db
            end
          else db
      | None => db
      end
  end.

(** [SET stop_loss = ?, take_profit = ?] *)
Definition set_stops (stop take : Q) (r : Row) : Row :=
  {| id := id r;
     symbol := symbol r;
     entry_price := entry_price r;
     exit_price := exit_price r;
     stop_loss := Some stop;
     take_profit := Some take;
     quantity := quantity r;
     entry_date := entry_date r;
     exit_date := exit_date r;
     pnl := pnl r;
     trade_type := trade_type r;
     status := status r;
     notes := notes r;
     original_quantity := original_quantity r |}.

(** [save_modifications()] of [modify_position], on the texts of the two
    entry fields. *)
Definition save_modifications (db : DB) (position_id : Z)
  (stop_text take_text : option Q) : DB :=
  Py.catch
    (stop <- Py.float stop_text ;;
     take <- Py.float take_text ;;
     Py.Ok (update_by_id db position_id (set_stops stop take)))
    (fun _ => db).

(** The colour tag of a line of the tree. *)
Inductive Tag : Type := profit | loss.

(** A line [load_positions] inserts into the tree (amounts before their
    formatting; a stop or a take-profit shown as "N/A" is [None]). *)
Record TreeItem : Type := {
  item_id : Z;
  item_symbol : string;
  item_entry_price : Q;
  item_current_price : Q;
  item_stop_loss : option Q;
  item_take_profit : option Q;
  item_quantity : Z;
  item_pnl : Q;
  item_pnl_percentage : Q;
  item_status : Status;
  item_tag : Tag
}.

(** ["$..." if x else "N/A"] *)
Definition shown_if_truthy (x : option Q) : option Q :=
  if Py.truthy_opt x then x else None.

(** The loop of [load_positions] over the rows of its query (the open
    positions), each with the price [get_real_time_price] returns for it.
    The result is the lines inserted and the exception that stopped the
    loop, if one did. *)
Fixpoint load_positions (positions : list (Row * option Q))
  : list TreeItem * option Py.exn :=
  match positions with
  | [] => ([], None)
  | (position, current_price) :: rest =>
      match current_price with
      | Some price =>
          if Py.truthy price then
            let qty := inject_Z (quantity position) in
            let p := match trade_type position with
                     | Long => (price - entry_price position) * qty
                     | Short => (entry_price position - price) * qty
                     end in
            match Py.truediv p (entry_price position * qty) with
            | Py.Ok share =>
                let item :=
                  {| item_id := id position;
                     item_symbol := symbol position;
                     item_entry_price := entry_price position;
                     item_current_price := price;
                     item_stop_loss := shown_if_truthy (stop_loss position);
                     item_take_profit := shown_if_truthy (take_profit position);
                     item_quantity := quantity position;
                     item_pnl := p;
                     item_pnl_percentage := share * 100;
                     item_status := status position;
                     item_tag := if Py.gt p 0 then profit else loss |} in
                let (items, error) := load_positions rest in
                (item :: items, error)
            | Py.Raise e => ([], Some e)
            end
          else load_positions rest
      | None => load_positions rest
      end
  end.

(** *** Observations of the table used to state conservation *)

(** Every id in the table was handed out by the sequence. *)
Definition well_formed (db : DB) : bool :=
  forallb (fun r => (id r <=? sequence db)%Z) (rows db).

Definition is_open (r : Row) : bool :=
  match status r with
  | Open => true
  | Closed => false
  end.

Definition is_closed (r : Row) : bool := negb (is_open r).

(** The sum of the quantities of a list of rows. *)
Definition quantities (l : list Row) : Z :=
  fold_right (fun r acc => (quantity r + acc)%Z) 0%Z l.

(** The quantity of position [position_id] that is still open. *)
Definition live_quantity (db : DB) (position_id : Z) : Z :=
  quantities (filter is_open (select_by_id db position_id)).

(** The rows inserted into the table since it was [db0]. *)
Definition inserted_since (db0 db : DB) : list Row :=
  skipn (List.length (rows db0)) (rows db).

(** The quantity of position [position_id] that is settled in [db], when the
    only statements run since [db0] were closes of that position: the lots
    inserted since, and the position's own row once it is closed. *)
Definition settled_quantity (db0 db : DB) (position_id : Z) : Z :=
  (quantities (filter is_closed (select_by_id db position_id))
   + quantities (filter is_closed (inserted_since db0 db)))%Z.

(** A lot carries the entry of the position it was split from. *)
Definition same_entry (position lot : Row) : Prop :=
  symbol lot = symbol position
  /\ entry_price lot = entry_price position
  /\ entry_date lot = entry_date position
  /\ trade_type lot = trade_type position.

(** The shape of the table after some closes of position [position_id],
    started from [db0] where the position was the row [r0]: the rows of [db0]
    (the position's row [r] among them, possibly rewritten) followed by the
    lots split from it. *)
Definition split_state (db0 : DB) (r0 : Row) (position_id : Z) (db : DB) : Prop :=
  exists (r : Row) (base lots : list Row),
    rows db = base ++ lots
    /\ List.length base = List.length (rows db0)
    /\ filter (fun x => (id x =? position_id)%Z) base = [r]
    /\ Forall (fun lot => id lot <> position_id /\ status lot = Closed
                          /\ same_entry r0 lot) lots
    /\ Forall (fun i => (i <= sequence db)%Z) (map id (rows db))
    /\ same_entry r0 r
    /\ (quantity r + quantities lots = quantity r0)%Z
    /\ original_quantity r = match lots with
                             | [] => None
                             | _ :: _ => Some (quantity r0)
                             end.

(** *** Invariants of the table *)

(** No id occurs twice. *)
Definition unique_ids (db : DB) : Prop := NoDup (map id (rows db)).

Definition is_some {A : Type} (x : option A) : bool :=
  match x with
  | Some _ => true
  | None => false
  end.

(** A Closed row has its exit price, its exit date and its pnl. *)
Definition settled (r : Row) : bool :=
  is_open r || (is_some (exit_price r) && is_some (exit_date r) && is_some (pnl r)).


(** Every row has a positive quantity. *)
Definition positive_quantities (db : DB) : bool :=
  forallb (fun r => (0 <? quantity r)%Z) (rows db).

(** What identifies the entry of a row. *)
Definition entry_key (r : Row) : Z * string * Q * Z * TradeType :=
  (id r, symbol r, entry_price r, entry_date r, trade_type r).

End PortfolioTracker.

(** ** Strings of the entry form *)

Module PyStr.

(** ASCII white space as [str.strip] sees it. *)
Definition is_space (c : ascii) : bool :=
  let n := nat_of_ascii c in
  ((9 <=? n)%nat && (n <=? 13)%nat) || ((28 <=? n)%nat && (n <=? 32)%nat).

Fixpoint lstrip (s : string) : string :=
  match s with
  | EmptyString => EmptyString
  | String c s' => if is_space c then lstrip s' else s
  end.

Fixpoint rstrip (s : string) : string :=
  match s with
  | EmptyString => EmptyString
  | String c s' =>
      match rstrip s' with
      | EmptyString => if is_space c then EmptyString else String c EmptyString
      | rest => String c rest
      end
  end.

(** [s.strip()] *)
Definition strip (s : string) : string := rstrip (lstrip s).

Definition upper_char (c : ascii) : ascii :=
  let n := nat_of_ascii c in
  if ((97 <=? n)%nat && (n <=? 122)%nat) then ascii_of_nat (n - 32) else c.

(** [s.upper()] *)
Fixpoint upper (s : string) : string :=
  match s with
  | EmptyString => EmptyString
  | String c s' => String (upper_char c) (upper s')
  end.

(** [not s] *)
Definition is_empty (s : string) : bool :=
  match s with
  | EmptyString => true
  | String _ _ => false
  end.

(** [s.isascii()]: on such a text the functions above are those of Python. *)
Fixpoint is_ascii (s : string) : bool :=
  match s with
  | EmptyString => true
  | String c s' => (nat_of_ascii c <? 128)%nat && is_ascii s'
  end.

End PyStr.

(** ** class MarketDataManager: Average True Range *)

Module MarketDataManager.

(** A float of a pandas column: a number or NaN. *)
Inductive pyfloat : Type :=
| NaN
| Num (q : Q).

(** A daily bar of the DataFrame [get_historical_data] returns (the empty
    DataFrame when the download fails). *)
Record Bar : Type := {
  High : Q;
  Low : Q;
  Close : Q
}.

(** [series.shift(1)]: the first entry becomes NaN, the last one is dropped. *)
Definition shift1 (xs : list Q) : list pyfloat :=
  firstn (List.length xs) (NaN :: map Num xs).

(** [abs(a - b)] where [b] may be NaN *)
Definition abs_diff (a : Q) (b : pyfloat) : pyfloat :=
  match b with
  | NaN => NaN
  | Num y => Num (Qabs (a - y))
  end.

(** The maximum of two entries of a row as [DataFrame.max(axis=1)] takes it:
    NaN entries are skipped. *)
Definition fmax (a b : pyfloat) : pyfloat :=
  match a, b with
  | NaN, _ => b
  | _, NaN => a
  | Num x, Num y => Num (if Py.lt x y then y else x)
  end.

(** The column [TR]. *)
Definition true_range (data : list Bar) : list pyfloat :=
  map (fun bc : Bar * pyfloat =>
         let (b, prev_close) := bc in
         fmax (fmax (Num (High b - Low b)) (abs_diff (High b) prev_close))
              (abs_diff (Low b) prev_close))
      (combine data (shift1 (map Close data))).

Fixpoint all_nums (xs : list pyfloat) : option (list Q) :=
  match xs with
  | [] => Some []
  | NaN :: _ => None
  | Num q :: rest =>
      match all_nums rest with
      | Some qs => Some (q :: qs)
      | None => None
      end
  end.

(** The mean of one window of [rolling(window).mean()]: [min_periods] is the
    window size, so a window with fewer than [window] numbers gives NaN. *)
Definition window_mean (window : nat) (w : list pyfloat) : pyfloat :=
  match window with
  | O => NaN
  | S _ =>
      if (List.length w <? window)%nat then NaN
      else match all_nums w with
           | Some qs => Num (Py.sum qs / Py.len qs)
           | None => NaN
           end
  end.

(** [series.rolling(window=window).mean()]: entry [i] is the mean of the
    entries [i - window + 1 .. i]. *)
Definition rolling_mean (window : nat) (xs : list pyfloat) : list pyfloat :=
  map (fun i => window_mean window (skipn (S i - window) (firstn (S i) xs)))
      (seq 0 (List.length xs)).

(** [series.iloc[-1]] *)
Definition iloc_last {A : Type} (xs : list A) : Py.result A :=
  match rev xs with
  | [] => Py.Raise Py.IndexError
  | x :: _ => Py.Ok x
  end.

(** [calculate_atr(self, symbol, period=14)], on the history of [symbol]:
    [None] when the history is empty or an exception is raised, otherwise the
    last entry of the column [ATR]. *)
Definition calculate_atr (data : list Bar) (period : nat) : option pyfloat :=
  Py.catch
    (match data with
     | [] => Py.Ok None
     | _ :: _ =>
         atr <- iloc_last (rolling_mean period (true_range data)) ;;
         Py.Ok (Some atr)
     end)
    (fun _ => None).

(** The dict [self.cache]: symbol to price and time of the fetch. *)
Record CacheEntry : Type := {
  price : Q;
  timestamp : Q
}.

Definition Cache : Type := list (string * CacheEntry).

(** [self.cache[symbol]], [None] when [symbol not in self.cache] *)
Fixpoint cache_get (cache : Cache) (symbol : string) : option CacheEntry :=
  match cache with
  | [] => None
  | (k, v) :: rest => if String.eqb k symbol then Some v else cache_get rest symbol
  end.

(** [self.cache[symbol] = entry] *)
Fixpoint cache_set (cache : Cache) (symbol : string) (entry : CacheEntry) : Cache :=
  match cache with
  | [] => [(symbol, entry)]
  | (k, v) :: rest =>
      if String.eqb k symbol then (k, entry) :: rest
      else (k, v) :: cache_set rest symbol entry
  end.

(** What [ticker.history(period='1d')] gives: an exception, an empty frame
    or a frame whose last close is a price. *)
Inductive History : Type :=
| HistoryError
| HistoryEmpty
| HistoryClose (last_close : Q).

(** [self.cache_timeout], in seconds *)
Definition cache_timeout : Q := 60.

(** [get_real_time_price(self, symbol)] at time [current_time], with what the
    download gives should it be needed; returns the price and the cache it
    leaves. *)
Definition get_real_time_price (cache : Cache) (symbol : string)
  (current_time : Q) (history : History) : option Q * Cache :=
  let download :=
    match history with
    | HistoryError => (None, cache)
    | HistoryEmpty => (None, cache)
    | HistoryClose p =>
        (Some p, cache_set cache symbol {| price := p; timestamp := current_time |})
    end in
  match cache_get cache symbol with
  | Some cached_data =>
      if Py.lt (current_time - timestamp cached_data) cache_timeout
      then (Some (price cached_data), cache)
      else download
  | None => download
  end.

End MarketDataManager.

(** ** class PositionCalculator: the entry form *)

Module PositionCalculator.

Import Portfolio.

(** The radio buttons of the stop-loss frame. *)
Inductive StopLossType : Type := Fixed | ATR.

(** The state of the form.  A numeric entry field is what [float(...)] makes
    of its text: [None] when the text is not a number. *)
Record t : Type := {
  risk_manager : RiskManagement.t;
  symbol_var : string;
  entry_price_var : option Q;
  stop_loss_var : option Q;
  take_profit_var : option Q;
  atr_multiplier_var : option Q;
  trade_type : TradeType;
  stop_loss_type : StopLossType
}.

(** [float(var.get())] *)
Definition float (v : option Q) : Py.result Q :=
  match v with
  | Some q => Py.Ok q
  | None => Py.Raise (Py.ValueError "could not convert string to float")
  end.

(** The row [save_trade] inserts. *)
Definition open_row (sym : string) (entry stop take : Q) (position_size now : Z)
  (tt : TradeType) (new_id : Z) : Row :=
  {| id := new_id;
     symbol := sym;
     entry_price := entry;
     exit_price := None;
     stop_loss := Some stop;
     take_profit := Some take;
     quantity := position_size;
     entry_date := now;
     exit_date := None;
     pnl := None;
     Portfolio.trade_type := tt;
     status := Open;
     notes := None;
     original_quantity := None |}.

Definition save_trade_body (self : t) (position_size now : Z) (db : DB)
  : Py.result DB :=
  let sym := PyStr.upper (PyStr.strip (symbol_var self)) in
  entry <- float (entry_price_var self) ;;
  stop <- float (stop_loss_var self) ;;
  take <- float (take_profit_var self) ;;
  if PyStr.is_empty sym || Py.le entry 0 || Py.le stop 0 || Py.le take 0
  then Py.Raise (Py.ValueError "Invalid trade parameters")
  else Py.Ok (insert db (open_row sym entry stop take position_size now
                                  (trade_type self))).

(** [save_trade(self, position_size)] *)
Definition save_trade (self : t) (position_size now : Z) (db : DB) : DB :=
  Py.catch (save_trade_body self position_size now db) (fun _ => db).

(** [calculate_position(self)]; [confirm] is the answer to the dialog
    "Would you like to save this trade?".  The labels it fills and the
    warning for a ratio below 1 do not touch the table. *)
Definition calculate_position_body (self : t) (confirm : bool) (now : Z)
  (db : DB) : Py.result DB :=
  entry <- float (entry_price_var self) ;;
  stop <- float (stop_loss_var self) ;;
  take <- float (take_profit_var self) ;;
  if Py.le entry 0 || Py.le stop 0 || Py.le take 0
  then Py.Raise (Py.ValueError "All prices must be greater than 0")
  else
    let position_size :=
      RiskManagement.calculate_position_size (risk_manager self) entry stop in
    match RiskManagement.calculate_risk_metrics (risk_manager self)
            position_size entry stop take with
    | Some _ =>
        if confirm then Py.Ok (save_trade self position_size now db)
        else Py.Ok db
    | None => Py.Ok db
    end.

Definition calculate_position (self : t) (confirm : bool) (now : Z) (db : DB)
  : DB :=
  Py.catch (calculate_position_body self confirm now db) (fun _ => db).

(** What [calculate_atr_stop_loss] leaves on the form. *)
Inductive AtrLabel : Type :=
| CurrentATR (atr : MarketDataManager.pyfloat)   (* "Current ATR: $..." *)
| NotAvailable.                                  (* "ATR: Not Available" *)

Record AtrOutcome : Type := {
  atr_value_label : option AtrLabel;                  (* [None]: label untouched *)
  stop_loss_written : option MarketDataManager.pyfloat; (* [None]: field untouched *)
  error_shown : bool                                  (* "Failed to calculate ATR stop loss." *)
}.

(** [price - atr * m] and [price + atr * m] in floats *)
Definition atr_stop (tt : TradeType) (price m : Q)
  (atr : MarketDataManager.pyfloat) : MarketDataManager.pyfloat :=
  match atr with
  | MarketDataManager.NaN => MarketDataManager.NaN
  | MarketDataManager.Num a =>
      match tt with
      | Long => MarketDataManager.Num (price - a * m)
      | Short => MarketDataManager.Num (price + a * m)
      end
  end.

(** [calculate_atr_stop_loss(self)]; [history] is what the market data source
    returns for the symbol of the form. *)
Definition calculate_atr_stop_loss (self : t)
  (history : list MarketDataManager.Bar) : AtrOutcome :=
  if PyStr.is_empty (PyStr.upper (symbol_var self))
  then {| atr_value_label := None; stop_loss_written := None;
          error_shown := false |}
  else
    match MarketDataManager.calculate_atr history 14 with
    | Some atr =>
        match stop_loss_type self with
        | ATR =>
            Py.catch
              (current_price <- float (entry_price_var self) ;;
               multiplier <- float (atr_multiplier_var self) ;;
               Py.Ok {| atr_value_label := Some (CurrentATR atr);
                        stop_loss_written :=
                          Some (atr_stop (trade_type self) current_price
                                         multiplier atr);
                        error_shown := false |})
              (fun _ => {| atr_value_label := Some (CurrentATR atr);
                           stop_loss_written := None;
                           error_shown := true |})
        | Fixed =>
            {| atr_value_label := Some (CurrentATR atr);
               stop_loss_written := None;
               error_shown := false |}
        end
    | None =>
        {| atr_value_label := Some NotAvailable;
           stop_loss_written := None;
           error_shown := false |}
    end.

End PositionCalculator.

(** ** class StatisticsTab *)

Module StatisticsTab.

(** A row of the query of [calculate_statistics], which selects the rows
    with [status = 'Closed']: a statement that sets this status also writes
    [pnl], [exit_price] and [exit_date]. *)
Record Trade : Type := {
  pnl : Q;
  entry_date : Z;
  exit_date : Z;
  entry_price : Q;
  exit_price : Q;
  stop_loss : option Q;
  take_profit : option Q
}.

(** A float that may be [float('inf')]. *)
Inductive xfloat : Type :=
| Finite (q : Q)
| Infinity.

Record Statistics : Type := {
  total_trades : nat;
  winning_trades : nat;
  losing_trades : nat;
  win_rate : Q;
  total_pnl : Q;
  profit_factor : xfloat;
  avg_win : Q;
  avg_loss : Q;
  largest_win : Q;
  largest_loss : Q;
  avg_rr : Q;
  avg_hold_time : Q
}.

Definition nonempty {A : Type} (xs : list A) : bool :=
  match xs with
  | [] => false
  | _ :: _ => true
  end.

(** [x] as a condition: a number that is not zero *)
Definition truthy (x : Q) : bool := negb (Py.eq x 0).

Definition truthy_opt (x : option Q) : bool :=
  match x with
  | Some q => truthy q
  | None => false
  end.

(** [sum(xs) / len(xs) if xs else 0] *)
Definition mean_or_zero (xs : list Q) : Py.result Q :=
  if nonempty xs then Py.truediv (Py.sum xs) (Py.len xs) else Py.Ok 0.

(** [max(xs) if xs else 0] *)
Definition max_or_zero (xs : list Q) : Q :=
  match xs with
  | [] => 0
  | x :: rest => Py.max x rest
  end.

(** The loop that collects [rr_ratios]. *)
Fixpoint rr_ratios (trades : list Trade) : Py.result (list Q) :=
  match trades with
  | [] => Py.Ok []
  | trade :: rest =>
      here <-
        (if truthy (entry_price trade) && truthy_opt (stop_loss trade)
            && truthy_opt (take_profit trade)
         then
           match stop_loss trade, take_profit trade with
           | Some stop, Some take =>
               let risk := Qabs (entry_price trade - stop) in
               let reward := Qabs (take - entry_price trade) in
               if Py.gt risk 0
               then (q <- Py.truediv reward risk ;; Py.Ok [q])
               else Py.Ok []
           | _, _ => Py.Ok []
           end
         else Py.Ok []) ;;
      others <- rr_ratios rest ;;
      Py.Ok (here ++ others)
  end.

Definition hold_times (trades : list Trade) : list Q :=
  map (fun trade => inject_Z (exit_date trade - entry_date trade)) trades.

Definition calculate_statistics_body (trades : list Trade)
  : Py.result Statistics :=
  let pnls := map pnl trades in
  let profits := filter (fun p => Py.gt p 0) pnls in
  let losses := map Qabs (filter (fun l => Py.lt l 0) pnls) in
  let total := List.length trades in
  let winning := List.length profits in
  let losing := List.length losses in
  rate <- (if (0 <? total)%nat
           then (q <- Py.truediv (Py.len profits) (Py.len trades) ;;
                 Py.Ok (q * 100))
           else Py.Ok 0) ;;
  factor <- (if nonempty losses && Py.gt (Py.sum losses) 0
             then (q <- Py.truediv (Py.sum profits) (Py.sum losses) ;;
                   Py.Ok (Finite q))
             else Py.Ok Infinity) ;;
  a_win <- mean_or_zero profits ;;
  a_loss <- mean_or_zero losses ;;
  ratios <- rr_ratios trades ;;
  a_rr <- mean_or_zero ratios ;;
  a_hold <- mean_or_zero (hold_times trades) ;;
  Py.Ok {| total_trades := total;
           winning_trades := winning;
           losing_trades := losing;
           win_rate := rate;
           total_pnl := Py.sum pnls;
           profit_factor := factor;
           avg_win := a_win;
           avg_loss := a_loss;
           largest_win := max_or_zero profits;
           largest_loss := max_or_zero losses;
           avg_rr := a_rr;
           avg_hold_time := a_hold |}.

(** What a call leaves on the tab. *)
Inductive Outcome : Type :=
| Untouched                 (* [if not trades: return] *)
| Shown (s : Statistics)    (* the labels are rewritten *)
| Failed (e : Py.exn).      (* "Failed to calculate statistics." *)

(** [calculate_statistics(self)] on the result of its query. *)
Definition calculate_statistics (trades : list Trade) : Outcome :=
  match trades with
  | [] => Untouched
  | _ :: _ =>
      Py.catch (s <- calculate_statistics_body trades ;; Py.Ok (Shown s))
               Failed
  end.

(** The lists [profits] and [losses] of the body, and the pnls that are in
    neither. *)
Definition profits_of (trades : list Trade) : list Q :=
  filter (fun p => Py.gt p 0) (map pnl trades).

Definition losses_of (trades : list Trade) : list Q :=
  map Qabs (filter (fun l => Py.lt l 0) (map pnl trades)).


End StatisticsTab.

(** ** class ClosedTradesTab *)

Module ClosedTradesTab.




End ClosedTradesTab.

(** ** The classes on floats *)

Module Binary64.

(** *** class RiskManagement *)

Module RiskManagement.

(** Both attributes are floats, as the application passes them: 10000.0 and
    the default 0.02, or [float(text)] from the settings. *)
Record t : Type := Make {
  account_balance : F64.t;
  max_risk_per_trade : F64.t
}.

(** [__init__(self, account_balance, max_risk_per_trade=0.02)] *)
Definition init (balance : F64.t) : t := Make balance (F64.of_Q (2 # 100)).

Definition calculate_position_size_body (self : t) (entry_price stop_loss : F64.t)
  : Py.result Z :=
  let risk_amount := F64.mul (account_balance self) (max_risk_per_trade self) in
  let risk_per_share := F64.abs (F64.sub entry_price stop_loss) in
  if F64.eqb risk_per_share F64.zero then Py.Ok 0%Z
  else
    q <- F64.truediv risk_amount risk_per_share ;;
    F64.int q.

Definition calculate_position_size (self : t) (entry_price stop_loss : F64.t) : Z :=
  Py.catch (calculate_position_size_body self entry_price stop_loss)
           (fun _ => 0%Z).

Record RiskMetrics : Type := {
  risk_per_share : F64.t;
  reward_per_share : F64.t;
  total_risk : F64.t;
  total_reward : F64.t;
  risk_reward_ratio : F64.t;
  risk_percentage : F64.t
}.

Definition calculate_risk_metrics_body (self : t) (position_size : Z)
  (entry_price stop_loss take_profit : F64.t) : Py.result RiskMetrics :=
  let risk := F64.abs (F64.sub entry_price stop_loss) in
  let reward := F64.abs (F64.sub take_profit entry_price) in
  size <- F64.of_int position_size ;;
  let t_risk := F64.mul risk size in
  let t_reward := F64.mul reward size in
  ratio <- (if F64.gtb risk F64.zero then F64.truediv reward risk
            else Py.Ok F64.zero) ;;
  share <- F64.truediv t_risk (account_balance self) ;;
  Py.Ok {| risk_per_share := risk;
           reward_per_share := reward;
           total_risk := t_risk;
           total_reward := t_reward;
           risk_reward_ratio := ratio;
           risk_percentage := F64.mul share (F64.of_Z 100) |}.

(** Returns [None] when the body raises. *)
Definition calculate_risk_metrics (self : t) (position_size : Z)
  (entry_price stop_loss take_profit : F64.t) : option RiskMetrics :=
  Py.catch
    (m <- calculate_risk_metrics_body self position_size entry_price
            stop_loss take_profit ;; Py.Ok (Some m))
    (fun _ => None).

(** The message of the pair [validate_trade] returns. *)
Inductive message : Type :=
| RatioBelowMinimum                   (* "Risk/Reward ratio should be at least 1:2" *)
| RiskExceedsMaximum (max_risk : F64.t) (* "Risk exceeds maximum allowed risk of $..." *)
| ValidationSuccessful                (* "Trade validation successful" *)
| ErrorValidating (e : Py.exn).       (* "Error validating trade: ..." *)

Definition validate_trade_body (self : t) (entry_price stop_loss take_profit : F64.t)
  : Py.result (bool * message) :=
  let risk := F64.abs (F64.sub entry_price stop_loss) in
  let reward := F64.abs (F64.sub take_profit entry_price) in
  ratio <- F64.truediv reward risk ;;
  if F64.ltb ratio (F64.of_Z 2) then Py.Ok (false, RatioBelowMinimum)
  else
    let max_risk := F64.mul (account_balance self) (max_risk_per_trade self) in
    if F64.gtb risk max_risk then Py.Ok (false, RiskExceedsMaximum max_risk)
    else Py.Ok (true, ValidationSuccessful).

Definition validate_trade (self : t) (entry_price stop_loss take_profit : F64.t)
  : bool * message :=
  Py.catch (validate_trade_body self entry_price stop_loss take_profit)
           (fun e => (false, ErrorValidating e)).

End RiskManagement.

(** *** The [portfolio] table as [save_trade] writes it *)

Module Table.

(** One row, columns in the order of [CREATE TABLE], the REAL columns as
    floats. *)
Record Row : Type := {
  id : Z;
  symbol : list N;
  entry_price : F64.t;
  exit_price : option F64.t;
  stop_loss : option F64.t;
  take_profit : option F64.t;
  quantity : Z;
  entry_date : Z;
  exit_date : option Z;
  pnl : option F64.t;
  trade_type : Portfolio.TradeType;
  status : Portfolio.Status;
  notes : option (list N);
  original_quantity : option Z
}.

Record DB : Type := {
  rows : list Row;
  sequence : Z
}.

(** [INSERT INTO portfolio (...)]: the id is the next of the sequence. *)
Definition insert (db : DB) (mk : Z -> Row) : DB :=
  let new_id := (sequence db + 1)%Z in
  {| rows := rows db ++ [mk new_id];
     sequence := new_id |}.

(** The table of a fresh database. *)
Definition empty : DB := {| rows := []; sequence := 0 |}.

(** A float bound to a REAL column: SQLite stores NaN as NULL. *)
Definition real (x : F64.t) : option F64.t :=
  if F64.is_nan x then None else Some x.

(** An [int] bound to an INTEGER column must fit 64 bits. *)
Definition int64 (n : Z) : bool := (- 2 ^ 63 <=? n)%Z && (n <? 2 ^ 63)%Z.

End Table.

(** *** class PositionCalculator: the entry form *)

Module PositionCalculator.

(** The state of the form.  A numeric entry field is what [float(...)] makes
    of its text: [None] when it raises ValueError; the texts 'nan' and 'inf'
    are floats. *)
Record t : Type := {
  risk_manager : RiskManagement.t;
  symbol_var : list N;
  entry_price_var : option F64.t;
  stop_loss_var : option F64.t;
  take_profit_var : option F64.t;
  trade_type : Portfolio.TradeType
}.

(** [float(var.get())] *)
Definition float (v : option F64.t) : Py.result F64.t :=
  match v with
  | Some x => Py.Ok x
  | None => Py.Raise (Py.ValueError "could not convert string to float")
  end.

(** The row [save_trade] inserts. *)
Definition open_row (sym : list N) (entry stop take : F64.t)
  (position_size now : Z) (tt : Portfolio.TradeType) (new_id : Z)
  : Table.Row :=
  {| Table.id := new_id;
     Table.symbol := sym;
     Table.entry_price := entry;
     Table.exit_price := None;
     Table.stop_loss := Table.real stop;
     Table.take_profit := Table.real take;
     Table.quantity := position_size;
     Table.entry_date := now;
     Table.exit_date := None;
     Table.pnl := None;
     Table.trade_type := tt;
     Table.status := Portfolio.Open;
     Table.notes := None;
     Table.original_quantity := None |}.

Section Environment.

(** [str.upper], the case mapping of Unicode, is a parameter. *)
Variable upper : list N -> list N.

(** So is the standard output, to which [save_trade] prints the trade before
    it saves it: the texts its encoding accepts. *)
Variable stdout_accepts : list N -> bool.

(** The debug [print] raises UnicodeEncodeError on a symbol the standard
    output cannot encode.  The INSERT raises when the symbol cannot be
    encoded as UTF-8, when the quantity does not fit an INTEGER, and when
    the NOT NULL column [entry_price] is given a NaN.  Every exception is
    caught, and the database itself is taken to work. *)
Definition save_trade_body (self : t) (position_size now : Z) (db : Table.DB)
  : Py.result Table.DB :=
  let sym := upper (Unicode.strip (symbol_var self)) in
  entry <- float (entry_price_var self) ;;
  stop <- float (stop_loss_var self) ;;
  take <- float (take_profit_var self) ;;
  if Unicode.is_empty sym
     || F64.leb entry F64.zero || F64.leb stop F64.zero || F64.leb take F64.zero
  then Py.Raise (Py.ValueError "Invalid trade parameters")
  else if negb (stdout_accepts sym) then Py.Raise Py.UnicodeEncodeError
  else if negb (Unicode.encodable sym) then Py.Raise Py.UnicodeEncodeError
  else if negb (Table.int64 position_size) then Py.Raise Py.OverflowError
  else if F64.is_nan entry then Py.Raise Py.IntegrityError
  else Py.Ok (Table.insert db (open_row sym entry stop take position_size now
                                            (trade_type self))).

(** [save_trade(self, position_size)] *)
Definition save_trade (self : t) (position_size now : Z) (db : Table.DB)
  : Table.DB :=
  Py.catch (save_trade_body self position_size now db) (fun _ => db).

Definition calculate_position_body (self : t) (confirm : bool) (now : Z)
  (db : Table.DB) : Py.result Table.DB :=
  entry <- float (entry_price_var self) ;;
  stop <- float (stop_loss_var self) ;;
  take <- float (take_profit_var self) ;;
  if F64.leb entry F64.zero || F64.leb stop F64.zero || F64.leb take F64.zero
  then Py.Raise (Py.ValueError "All prices must be greater than 0")
  else
    let position_size :=
      RiskManagement.calculate_position_size (risk_manager self) entry stop in
    match RiskManagement.calculate_risk_metrics (risk_manager self)
            position_size entry stop take with
    | Some _ =>
        if confirm then Py.Ok (save_trade self position_size now db)
        else Py.Ok db
    | None => Py.Ok db
    end.

Definition calculate_position (self : t) (confirm : bool) (now : Z)
  (db : Table.DB) : Table.DB :=
  Py.catch (calculate_position_body self confirm now db) (fun _ => db).

End Environment.

End PositionCalculator.

End Binary64.

(** ** Sequences of operations on the table *)

Module Ledger.

Import Portfolio.

(** The calls that write to the [portfolio] table. *)
Inductive Operation : Type :=
| CalculatePosition (form : PositionCalculator.t) (confirm : bool) (now : Z)
| SaveTrade (form : PositionCalculator.t) (position_size now : Z)
| ClosePosition (position_id : Z) (exit : Q) (now : Z)
| PartialClose (position_id close_quantity : Z) (exit : Q) (now : Z)
| Modify (position_id : Z) (stop_text take_text : option Q).

Definition apply (db : DB) (op : Operation) : DB :=
  match op with
  | CalculatePosition form confirm now =>
      PositionCalculator.calculate_position form confirm now db
  | SaveTrade form position_size now =>
      PositionCalculator.save_trade form position_size now db
  | ClosePosition position_id exit now =>
      PortfolioTracker.execute_close_position db position_id exit now
  | PartialClose position_id close_quantity exit now =>
      PortfolioTracker.execute_partial_close db position_id close_quantity exit now
  | Modify position_id stop_text take_text =>
      PortfolioTracker.save_modifications db position_id stop_text take_text
  end.

Definition run (db : DB) (ops : list Operation) : DB := fold_left apply ops db.

(** The table of a fresh database. *)
Definition empty : DB := {| rows := []; sequence := 0 |}.

(** How one operation changes the table: every row is kept in its place with
    its entry (and stays settled if it was), and at most one row, with the
    next id of the sequence, is appended. *)
Definition step_shape (db db' : DB) : Prop :=
  exists (f : Row -> Row) (extra : list Row),
    rows db' = map f (rows db) ++ extra
    /\ (forall r, PortfolioTracker.entry_key (f r) = PortfolioTracker.entry_key r)
    /\ (forall r, PortfolioTracker.settled r = true ->
                  PortfolioTracker.settled (f r) = true)
    /\ ((extra = [] /\ sequence db' = sequence db)
        \/ (exists row,
              extra = [row]
              /\ id row = (sequence db + 1)%Z
              /\ sequence db' = (sequence db + 1)%Z
              /\ PortfolioTracker.settled row = true)).

End Ledger.

(** * Properties *)

(** ** Comparisons, division and truncation *)

Lemma py_eq_true (a b : Q) : Py.eq a b = true <-> a == b.
Proof. unfold Py.eq. apply Qeq_bool_iff. Qed.

Lemma py_eq_false (a b : Q) : Py.eq a b = false <-> ~ a == b.
Proof.
  rewrite <- py_eq_true. destruct (Py.eq a b).
  - split; [discriminate | intro H; exfalso; now apply H].
  - split; [intros _ H; discriminate | reflexivity].
Qed.

Lemma py_lt_true (a b : Q) : Py.lt a b = true <-> a < b.
Proof.
  unfold Py.lt. rewrite negb_true_iff. split; intro H.
  - apply Qnot_le_lt. intro Hle. apply Qle_bool_iff in Hle. congruence.
  - destruct (Qle_bool b a) eqn:E; [| reflexivity].
    apply Qle_bool_iff in E. exfalso. now apply (Qlt_not_le a b).
Qed.

Lemma py_lt_false (a b : Q) : Py.lt a b = false <-> b <= a.
Proof.
  unfold Py.lt. rewrite negb_false_iff. apply Qle_bool_iff.
Qed.

Lemma py_gt_true (a b : Q) : Py.gt a b = true <-> b < a.
Proof. unfold Py.gt. apply py_lt_true. Qed.


Lemma truediv_ok (a b : Q) : ~ b == 0 -> Py.truediv a b = Py.Ok (a / b).
Proof.
  intro H. unfold Py.truediv. apply py_eq_false in H. now rewrite H.
Qed.


(** On a number that is not negative [int] is the floor. *)
Lemma int_floor_nonneg (x : Q) : 0 <= x -> Py.int x = Qfloor x /\ (0 <= Py.int x)%Z.
Proof.
  destruct x as [n d]. unfold Qle, Py.int, Qfloor. simpl. intro H.
  assert (Hn : (0 <= n)%Z) by lia.
  split.
  - apply Z.quot_div_nonneg; lia.
  - apply Z.quot_pos; lia.
Qed.


(** ** RiskManagement.calculate_position_size, on numbers *)

Section PositionSize.

Variable self : RiskManagement.t.
Variables entry_price stop_loss : Q.

Let risk_per_share : Q := Qabs (entry_price - stop_loss).


End PositionSize.

(** ** Floats: comparisons, differences and signs *)

Ltac f64_cases H :=
  try (simpl in H;
       repeat match goal with b : bool |- _ => destruct b end;
       discriminate).

Section Binary64Arithmetic.

Lemma f64_eqb_finite (s1 s2 : bool) (m1 m2 : positive) (e1 e2 : Z) :
  F64.eqb (S754_finite s1 m1 e1) (S754_finite s2 m2 e2) = true ->
  s1 = s2 /\ m1 = m2 /\ e1 = e2.
Proof.
  unfold F64.eqb, SFeqb, SFcompare.
  destruct s1, s2; try discriminate.
  - destruct (Z.compare e1 e2) eqn:E; try discriminate.
    apply Z.compare_eq in E. intro H.
    destruct (Pos.compare_cont Eq m1 m2) eqn:P; try discriminate.
    apply Pos.compare_eq in P.
    repeat split; assumption.
  - destruct (Z.compare e1 e2) eqn:E; try discriminate.
    apply Z.compare_eq in E. intro H.
    destruct (Pos.compare_cont Eq m1 m2) eqn:P; try discriminate.
    apply Pos.compare_eq in P.
    repeat split; assumption.
Qed.

(** [x - y] is a zero when [x == y] holds between finite floats. *)
Lemma f64_sub_equal (x y : F64.t) :
  F64.is_finite x = true -> F64.eqb y x = true ->
  F64.abs (F64.sub x y) = F64.zero.
Proof.
  intros F E. destruct x as [[]|[]| |sx mx ex]; try discriminate;
    destruct y as [[]|[]| |sy my ey]; f64_cases E;
    try reflexivity.
  apply f64_eqb_finite in E. destruct E as (-> & -> & ->).
  unfold F64.sub, SFsub. rewrite Z.sub_diag. reflexivity.
Qed.

(** [x - y] is NaN when [x == y] holds between infinities. *)
Lemma f64_sub_equal_infinite (x y : F64.t) :
  F64.is_finite x = false -> F64.eqb y x = true ->
  F64.abs (F64.sub x y) = F64.nan.
Proof.
  intros F E. destruct x as [[]|[]| |sx mx ex]; try discriminate;
    destruct y as [[]|[]| |sy my ey]; f64_cases E;
    reflexivity.
Qed.

Lemma f64_sub_nan_l (y : F64.t) : F64.sub F64.nan y = F64.nan.
Proof. destruct y; reflexivity. Qed.

Lemma f64_sub_nan_r (x : F64.t) : F64.sub x F64.nan = F64.nan.
Proof. destruct x; reflexivity. Qed.

Lemma f64_div_nan (x : F64.t) : F64.div x F64.nan = F64.nan.
Proof. destruct x; reflexivity. Qed.

Lemma f64_ltb_nan_r (x : F64.t) : F64.ltb x F64.nan = false.
Proof. destruct x; reflexivity. Qed.

End Binary64Arithmetic.

Section Binary64Sign.

(** Rounding keeps the sign. *)
Lemma binary_round_aux_sign (s : bool) (mx ex : Z) (lx : location) (q : Q) :
  F64.to_Q (binary_round_aux F64.prec F64.emax s mx ex lx) = Some q ->
  s = false -> 0 <= q.
Proof.
  unfold binary_round_aux.
  destruct (shr_fexp F64.prec F64.emax mx ex lx) as [mrs' e'].
  destruct (shr_fexp F64.prec F64.emax _ e' loc_Exact) as [mrs'' e''].
  destruct (shr_m mrs'') as [|m|m]; simpl.
  - intros H _. injection H as <-. apply Qle_refl.
  - match goal with |- context [Z.leb ?a ?b] => destruct (Z.leb a b) end;
      simpl; [| intros H; discriminate H].
    intros H ->. injection H as <-. simpl.
    apply Qmult_le_0_compat; [unfold Qle; simpl; lia |].
    apply Qpower_0_le. discriminate.
  - intros H; discriminate H.
Qed.

(** A quotient by an absolute value has the sign of the dividend. *)
Lemma f64_div_abs_nonneg (x z : F64.t) (q : Q) :
  F64.ltb x F64.zero = false ->
  F64.to_Q (F64.div x (F64.abs z)) = Some q ->
  F64.eqb (F64.abs z) F64.zero = false ->
  0 <= q.
Proof.
  intros L V NZ.
  destruct z as [sz|sz| |sz mz ez]; simpl in NZ; try discriminate;
    destruct x as [sx|sx| |sx mx ex]; simpl in V; try discriminate;
    try (injection V as <-; apply Qle_refl).
  destruct sx; [simpl in L; discriminate |].
  unfold F64.div, SFdiv in V.
  destruct (SFdiv_core_binary _ _ _ _ _ _) as [[mq eq'] lq].
  eapply binary_round_aux_sign; [exact V | reflexivity].
Qed.

End Binary64Sign.

(** ** RiskManagement.calculate_position_size *)

Section PositionSize64.

Import Binary64.RiskManagement.

Variable self : Binary64.RiskManagement.t.
Variables entry_price stop_loss : F64.t.

Let risk_amount : F64.t := F64.mul (account_balance self) (max_risk_per_trade self).
Let risk_per_share : F64.t := F64.abs (F64.sub entry_price stop_loss).
Let quotient : F64.t := F64.div risk_amount risk_per_share.

Lemma position_size_body_zero_risk :
  F64.eqb risk_per_share F64.zero = true ->
  calculate_position_size_body self entry_price stop_loss = Py.Ok 0%Z.
Proof.
  intro H. unfold calculate_position_size_body. fold risk_per_share.
  now rewrite H.
Qed.

Lemma position_size_body_quotient :
  F64.eqb risk_per_share F64.zero = false ->
  calculate_position_size_body self entry_price stop_loss = F64.int quotient.
Proof.
  intro H. unfold calculate_position_size_body, F64.truediv.
  fold risk_per_share. fold risk_amount. rewrite H. reflexivity.
Qed.

End PositionSize64.

(** C6 (as amended).  Position sizing in floats never raises to its caller.
    It returns 0 when the risk per share [abs(entry_price - stop_loss)] is a
    zero.  Otherwise it divides the risk amount
    [account_balance * max_risk_per_trade] by the risk per share in floats:
    when that quotient is a number [q], the result is [q] truncated toward
    zero, which is the floor of [q] and is not negative whenever the risk
    amount is not below zero; when the quotient is an infinity or NaN,
    [int] raises and the result is 0. *)
Theorem calculate_position_size_spec (self : Binary64.RiskManagement.t)
  (entry_price stop_loss : F64.t) :
  let risk_amount :=
    F64.mul (Binary64.RiskManagement.account_balance self)
            (Binary64.RiskManagement.max_risk_per_trade self) in
  let risk_per_share := F64.abs (F64.sub entry_price stop_loss) in
  let quotient := F64.div risk_amount risk_per_share in
  let body :=
    Binary64.RiskManagement.calculate_position_size_body self entry_price stop_loss in
  let size :=
    Binary64.RiskManagement.calculate_position_size self entry_price stop_loss in
  (F64.eqb risk_per_share F64.zero = true -> body = Py.Ok 0%Z /\ size = 0%Z)
  /\ (F64.eqb risk_per_share F64.zero = false ->
      match F64.to_Q quotient with
      | Some q =>
          body = Py.Ok (Py.int q) /\ size = Py.int q
          /\ (F64.ltb risk_amount F64.zero = false ->
              size = Qfloor q /\ (0 <= size)%Z)
      | None => (exists e, body = Py.Raise e) /\ size = 0%Z
      end).
Proof.
  intros risk_amount risk_per_share quotient body size. split.
  - intro H. unfold size, Binary64.RiskManagement.calculate_position_size.
    fold body. unfold body.
    rewrite (position_size_body_zero_risk self entry_price stop_loss H).
    split; reflexivity.
  - intro H.
    assert (B : body = F64.int quotient)
      by (apply position_size_body_quotient; exact H).
    unfold size, Binary64.RiskManagement.calculate_position_size.
    fold body. rewrite B. unfold F64.int.
    destruct (F64.to_Q quotient) as [q|] eqn:V.
    + split; [reflexivity |]. split; [reflexivity |].
      intro L. simpl. apply int_floor_nonneg.
      apply (f64_div_abs_nonneg risk_amount (F64.sub entry_price stop_loss));
        assumption.
    + destruct (F64.is_nan quotient); (split; [eexists; reflexivity | reflexivity]).
Qed.

(** At a balance of 10000 and prices that differ by 3, the size is 66. *)
Lemma calculate_position_size_spec_witness :
  Binary64.RiskManagement.calculate_position_size
    (Binary64.RiskManagement.init (F64.of_Z 10000)) (F64.of_Z 150) (F64.of_Z 147)
  = 66%Z.
Proof.
  pose proof (calculate_position_size_spec
                (Binary64.RiskManagement.init (F64.of_Z 10000))
                (F64.of_Z 150) (F64.of_Z 147)) as H.
  cbv zeta in H. destruct H as [_ H].
  specialize (H eq_refl).
  vm_compute in H. destruct H as (_ & H & _). exact H.
Defined.

(** C6 (as stated) fails on a negative balance: [int] truncates toward zero,
    so the size is -6, which is neither the floor -7 of the quotient nor a
    non-negative integer. *)
Lemma calculate_position_size_negative_budget :
  let self := Binary64.RiskManagement.init (F64.of_Z (-1000)) in
  let risk_per_share := F64.abs (F64.sub (F64.of_Z 150) (F64.of_Z 147)) in
  let quotient :=
    F64.div (F64.mul (Binary64.RiskManagement.account_balance self)
                     (Binary64.RiskManagement.max_risk_per_trade self))
            risk_per_share in
  let size :=
    Binary64.RiskManagement.calculate_position_size self
      (F64.of_Z 150) (F64.of_Z 147) in
  ~ (F64.eqb risk_per_share F64.zero = false ->
     option_map Qfloor (F64.to_Q quotient) = Some size /\ (0 <= size)%Z).
Proof.
  intros self risk_per_share quotient size H.
  destruct (H eq_refl) as [Hf _]. vm_compute in Hf. discriminate.
Qed.

(** The quotient is taken in floats: 10000 * 0.02 / abs(150.3 - 150.2) is
    just below 2000, and the size is 1999. *)
Example calculate_position_size_rounds_below :
  Binary64.RiskManagement.calculate_position_size
    (Binary64.RiskManagement.init (F64.of_Z 10000))
    (F64.of_Q (1503 # 10)) (F64.of_Q (1502 # 10)) = 1999%Z.
Proof. vm_compute. reflexivity. Qed.

(** An overflowing quotient: 1e308 * 0.02 / abs(0.1 - 0.10000000000000002)
    is an infinity, [int] raises OverflowError, and the size is 0. *)
Example calculate_position_size_infinite_quotient :
  let self := Binary64.RiskManagement.init (F64.of_Q (10 ^ 308)) in
  let entry := F64.of_Q (1 # 10) in
  let stop := F64.of_Q (10000000000000002 # 100000000000000000) in
  Binary64.RiskManagement.calculate_position_size_body self entry stop
  = Py.Raise Py.OverflowError
  /\ Binary64.RiskManagement.calculate_position_size self entry stop = 0%Z.
Proof. vm_compute. split; reflexivity. Qed.

(** ** RiskManagement.validate_trade *)

Section ValidateTrade64.

Import Binary64.RiskManagement.

Variable self : Binary64.RiskManagement.t.
Variables entry_price stop_loss take_profit : F64.t.

Let risk : F64.t := F64.abs (F64.sub entry_price stop_loss).
Let reward : F64.t := F64.abs (F64.sub take_profit entry_price).
Let ratio : F64.t := F64.div reward risk.
Let max_risk : F64.t := F64.mul (account_balance self) (max_risk_per_trade self).

(** The four outcomes, by the tests in the order the code makes them. *)
Lemma validate_trade_cases :
  validate_trade self entry_price stop_loss take_profit
  = if F64.eqb risk F64.zero then (false, ErrorValidating Py.ZeroDivisionError)
    else if F64.ltb ratio (F64.of_Z 2) then (false, RatioBelowMinimum)
    else if F64.gtb risk max_risk then (false, RiskExceedsMaximum max_risk)
    else (true, ValidationSuccessful).
Proof.
  unfold validate_trade, validate_trade_body, F64.truediv.
  fold risk. fold reward. fold max_risk.
  destruct (F64.eqb risk F64.zero); [reflexivity |].
  cbn [Py.bind]. fold ratio.
  destruct (F64.ltb ratio (F64.of_Z 2)); [reflexivity |].
  destruct (F64.gtb risk max_risk); reflexivity.
Qed.

Lemma validate_trade_body_zero_risk :
  F64.eqb risk F64.zero = true ->
  validate_trade_body self entry_price stop_loss take_profit
  = Py.Raise Py.ZeroDivisionError.
Proof.
  intro H. unfold validate_trade_body, F64.truediv. fold risk. now rewrite H.
Qed.

End ValidateTrade64.

(** A ratio that compares equal to 3 is not below 2. *)
Lemma ratio_three_not_below_two (ratio : F64.t) :
  F64.eqb ratio (F64.of_Z 3) = true -> F64.ltb ratio (F64.of_Z 2) = false.
Proof.
  assert (T : F64.of_Z 3 = S754_finite false 6755399441055744 (-51))
    by (vm_compute; reflexivity).
  rewrite T. clear T. intro H.
  destruct ratio as [[]|[]| |s m e]; try (simpl in H; discriminate).
  apply f64_eqb_finite in H. destruct H as (-> & -> & ->).
  vm_compute. reflexivity.
Qed.

(** A quotient that compares equal to 3 has a divisor that is not zero. *)
Lemma ratio_three_risk_not_zero (reward risk : F64.t) :
  F64.eqb (F64.div reward risk) (F64.of_Z 3) = true ->
  F64.eqb risk F64.zero = false.
Proof.
  assert (T : F64.of_Z 3 = S754_finite false 6755399441055744 (-51))
    by (vm_compute; reflexivity).
  rewrite T. clear T. intro H.
  destruct risk as [[]|[]| |[] m e]; try reflexivity;
    destruct reward as [[]|[]| |[] m' e']; simpl in H; discriminate.
Qed.

(** C3 (as amended).  [validate_trade] takes no quantity: the dollar risk it
    tests is the risk per share [abs(entry - stop)], in floats.  It rejects
    with the message "Risk exceeds maximum allowed risk" exactly when the risk
    per share is not zero, the float quotient reward / risk is not below 2,
    and the risk per share is above [account_balance * max_risk_per_trade];
    a trade whose risk per share is above that budget is always rejected
    (with the error or the ratio message when those tests, which come first,
    fire); and when the quotient reward / risk is 3 and the risk per share is
    above the budget, the rejection carries the budget message. *)
Theorem validate_trade_budget_rejection (self : Binary64.RiskManagement.t)
  (entry_price stop_loss take_profit : F64.t) :
  let risk := F64.abs (F64.sub entry_price stop_loss) in
  let reward := F64.abs (F64.sub take_profit entry_price) in
  let ratio := F64.div reward risk in
  let max_risk :=
    F64.mul (Binary64.RiskManagement.account_balance self)
            (Binary64.RiskManagement.max_risk_per_trade self) in
  let outcome :=
    Binary64.RiskManagement.validate_trade self entry_price stop_loss take_profit in
  ((exists m, outcome = (false, Binary64.RiskManagement.RiskExceedsMaximum m))
   <-> (F64.eqb risk F64.zero = false
        /\ F64.ltb ratio (F64.of_Z 2) = false
        /\ F64.gtb risk max_risk = true))
  /\ (forall m, outcome = (false, Binary64.RiskManagement.RiskExceedsMaximum m) ->
                m = max_risk)
  /\ (F64.gtb risk max_risk = true -> fst outcome = false)
  /\ (F64.eqb ratio (F64.of_Z 3) = true -> F64.gtb risk max_risk = true ->
      outcome = (false, Binary64.RiskManagement.RiskExceedsMaximum max_risk)).
Proof.
  intros risk reward ratio max_risk outcome.
  assert (C := validate_trade_cases self entry_price stop_loss take_profit).
  cbv zeta in C. fold risk reward ratio max_risk outcome in C.
  split; [split | split; [| split]].
  - intros [m H]. rewrite H in C.
    destruct (F64.eqb risk F64.zero); [discriminate |].
    destruct (F64.ltb ratio (F64.of_Z 2)); [discriminate |].
    destruct (F64.gtb risk max_risk); [| discriminate].
    repeat split.
  - intros (H1 & H2 & H3). rewrite H1, H2, H3 in C. eexists. exact C.
  - intros m H. rewrite H in C.
    destruct (F64.eqb risk F64.zero); [discriminate |].
    destruct (F64.ltb ratio (F64.of_Z 2)); [discriminate |].
    destruct (F64.gtb risk max_risk); [| discriminate].
    congruence.
  - intro H. rewrite C, H.
    destruct (F64.eqb risk F64.zero); [reflexivity |].
    destruct (F64.ltb ratio (F64.of_Z 2)); reflexivity.
  - intros H3 H. rewrite C, H.
    rewrite (ratio_three_risk_not_zero reward risk H3).
    rewrite (ratio_three_not_below_two ratio H3). reflexivity.
Qed.

(** On a budget of 2, entry 150, stop 140 and take-profit 180 have a ratio of
    3 and a risk per share of 10: rejected with the budget message. *)
Lemma validate_trade_budget_rejection_witness :
  exists m,
    Binary64.RiskManagement.validate_trade
      (Binary64.RiskManagement.init (F64.of_Z 100))
      (F64.of_Z 150) (F64.of_Z 140) (F64.of_Z 180)
    = (false, Binary64.RiskManagement.RiskExceedsMaximum m).
Proof.
  exists (F64.of_Z 2).
  pose proof (validate_trade_budget_rejection
                (Binary64.RiskManagement.init (F64.of_Z 100))
                (F64.of_Z 150) (F64.of_Z 140) (F64.of_Z 180)) as H.
  cbv zeta in H. destruct H as (_ & _ & _ & H).
  rewrite (H eq_refl eq_refl). vm_compute. reflexivity.
Defined.

(** C3 (as stated) fails by the order of the tests: on a budget of 2, entry
    150 with stop 145 risks 5 per share, above the budget, yet take-profit
    151 makes the ratio 0.2 and the rejection carries the ratio message. *)
Lemma validate_trade_ratio_checked_first :
  let self := Binary64.RiskManagement.init (F64.of_Z 100) in
  let risk := F64.abs (F64.sub (F64.of_Z 150) (F64.of_Z 145)) in
  let max_risk :=
    F64.mul (Binary64.RiskManagement.account_balance self)
            (Binary64.RiskManagement.max_risk_per_trade self) in
  ~ ((exists m,
        Binary64.RiskManagement.validate_trade self
          (F64.of_Z 150) (F64.of_Z 145) (F64.of_Z 151)
        = (false, Binary64.RiskManagement.RiskExceedsMaximum m))
     <-> F64.gtb risk max_risk = true).
Proof.
  intros self risk max_risk [_ H].
  destruct (H eq_refl) as [m Hm]. vm_compute in Hm. discriminate.
Qed.

(** The ratio is a float quotient: abs(104.9 - 100.7) / abs(100.7 - 98.6) is
    just below 2, and the rejection carries the ratio message although the
    risk per share 2.1 is above the budget of 2. *)
Example validate_trade_ratio_rounds_below :
  Binary64.RiskManagement.validate_trade
    (Binary64.RiskManagement.init (F64.of_Z 100))
    (F64.of_Q (1007 # 10)) (F64.of_Q (986 # 10)) (F64.of_Q (1049 # 10))
  = (false, Binary64.RiskManagement.RatioBelowMinimum).
Proof. vm_compute. reflexivity. Qed.

(** C8 (as amended).  When [stop == entry] holds and the entry price is
    finite, the risk is zero, [reward / risk] raises ZeroDivisionError before
    any ratio exists, and [validate_trade] catches it and rejects with the
    error message.  When [stop == entry] holds between infinities, the risk
    [abs(entry - stop)] is NaN, nothing raises, both tests are false, and
    the trade is accepted. *)
Theorem validate_trade_stop_equals_entry (self : Binary64.RiskManagement.t)
  (entry_price stop_loss take_profit : F64.t) :
  F64.eqb stop_loss entry_price = true ->
  (F64.is_finite entry_price = true ->
   Binary64.RiskManagement.validate_trade_body self entry_price stop_loss take_profit
   = Py.Raise Py.ZeroDivisionError
   /\ Binary64.RiskManagement.validate_trade self entry_price stop_loss take_profit
      = (false, Binary64.RiskManagement.ErrorValidating Py.ZeroDivisionError))
  /\ (F64.is_finite entry_price = false ->
      Binary64.RiskManagement.validate_trade self entry_price stop_loss take_profit
      = (true, Binary64.RiskManagement.ValidationSuccessful)).
Proof.
  intro E. split; intro F.
  - assert (Z : F64.eqb (F64.abs (F64.sub entry_price stop_loss)) F64.zero = true)
      by (rewrite (f64_sub_equal _ _ F E); reflexivity).
    split.
    + apply validate_trade_body_zero_risk. exact Z.
    + rewrite validate_trade_cases, Z. reflexivity.
  - rewrite validate_trade_cases.
    rewrite (f64_sub_equal_infinite _ _ F E).
    rewrite f64_div_nan. unfold F64.gtb. rewrite f64_ltb_nan_r. reflexivity.
Qed.

Lemma validate_trade_stop_equals_entry_witness :
  Binary64.RiskManagement.validate_trade
    (Binary64.RiskManagement.init (F64.of_Z 10000))
    (F64.of_Z 150) (F64.of_Z 150) (F64.of_Z 160)
  = (false, Binary64.RiskManagement.ErrorValidating Py.ZeroDivisionError).
Proof.
  apply (validate_trade_stop_equals_entry
           (Binary64.RiskManagement.init (F64.of_Z 10000))
           (F64.of_Z 150) (F64.of_Z 150) (F64.of_Z 160) eq_refl).
  reflexivity.
Defined.

(** C8 (as stated) fails at an infinite entry price: [inf == inf] holds, the
    risk [abs(inf - inf)] is NaN, and the trade is accepted. *)
Lemma validate_trade_infinite_entry_accepted :
  ~ (F64.eqb F64.infinity F64.infinity = true ->
     fst (Binary64.RiskManagement.validate_trade
            (Binary64.RiskManagement.init (F64.of_Z 10000))
            F64.infinity F64.infinity (F64.of_Z 160)) = false).
Proof. intro H. specialize (H eq_refl). vm_compute in H. discriminate. Qed.

(** ** The portfolio table *)

Section Table.

Import Portfolio.

Variable position_id : Z.
Variable set : Row -> Row.
Hypothesis set_keeps_id : forall r, id (set r) = id r.

Let on_position (r : Row) : Row :=
  if (id r =? position_id)%Z then set r else r.

Lemma filter_id_update (l : list Row) :
  filter (fun r => (id r =? position_id)%Z) (map on_position l)
  = map set (filter (fun r => (id r =? position_id)%Z) l).
Proof.
  unfold on_position.
  induction l as [| a l IH]; simpl; [reflexivity |].
  destruct (id a =? position_id)%Z eqn:E; simpl.
  - rewrite set_keeps_id, E. now rewrite IH.
  - rewrite E. exact IH.
Qed.

Lemma select_update (db : DB) :
  select_by_id (update_by_id db position_id set) position_id
  = map set (select_by_id db position_id).
Proof. unfold select_by_id, update_by_id. simpl. apply filter_id_update. Qed.

Lemma update_elsewhere (l : list Row) :
  Forall (fun r => id r <> position_id) l -> map on_position l = l.
Proof.
  unfold on_position.
  induction 1 as [| a l Ha _ IH]; simpl; [reflexivity |].
  apply Z.eqb_neq in Ha. rewrite Ha. now rewrite IH.
Qed.

Lemma update_ids (l : list Row) : map id (map on_position l) = map id l.
Proof.
  unfold on_position.
  induction l as [| a l IH]; simpl; [reflexivity |].
  rewrite IH.
  destruct (id a =? position_id)%Z; [rewrite set_keeps_id |]; reflexivity.
Qed.

End Table.

(** ** PortfolioTracker.execute_close_position *)

Section ClosePosition.

Import Portfolio PortfolioTracker.

Variables (db : DB) (position_id : Z) (exit : Q) (now : Z).

Lemma execute_close_position_found (r : Row) (rest : list Row) :
  select_by_id db position_id = r :: rest ->
  execute_close_position db position_id exit now
  = update_by_id db position_id
      (set_closed exit now ((exit - entry_price r) * inject_Z (quantity r))).
Proof.
  intro H. unfold execute_close_position, execute_close_position_body.
  rewrite H. reflexivity.
Qed.

Lemma execute_close_position_missing :
  select_by_id db position_id = [] ->
  execute_close_position db position_id exit now = db.
Proof.
  intro H. unfold execute_close_position, execute_close_position_body.
  rewrite H. reflexivity.
Qed.

(** What closing writes on the position: the exit price, the exit date, the
    status and a pnl that is [(exit - entry) * quantity] whatever the trade
    type. *)
Lemma execute_close_position_row (r : Row) :
  select_by_id db position_id = [r] ->
  select_by_id (execute_close_position db position_id exit now) position_id
  = [set_closed exit now ((exit - entry_price r) * inject_Z (quantity r)) r].
Proof.
  intro H. rewrite (execute_close_position_found r [] H).
  rewrite select_update by (intro; reflexivity). now rewrite H.
Qed.

Lemma execute_close_position_quantities :
  map quantity (rows (execute_close_position db position_id exit now))
  = map quantity (rows db)
  /\ map id (rows (execute_close_position db position_id exit now))
     = map id (rows db).
Proof.
  destruct (select_by_id db position_id) as [| r rest] eqn:H.
  - rewrite (execute_close_position_missing H). split; reflexivity.
  - rewrite (execute_close_position_found r rest H). simpl. split.
    + rewrite map_map. apply map_ext. intro a.
      destruct (id a =? position_id)%Z; reflexivity.
    + rewrite map_map. apply map_ext. intro a.
      destruct (id a =? position_id)%Z; reflexivity.
Qed.

End ClosePosition.

(** C1, evaluated where the code departs from the claim.  A Short position
    of 10 shares entered at 100 is closed at 95: [execute_close_position]
    stores the pnl [(95 - 100) * 10 = -50], the Long formula, where the claim
    and [execute_partial_close] have [(100 - 95) * 10 = 50].  The exit price,
    the exit date and the status are written as claimed. *)
Theorem execute_close_position_short_pnl :
  let position :=
    PositionCalculator.open_row "TSLA" 100 105 90 10 1000 Portfolio.Short 1 in
  let db := {| Portfolio.rows := [position]; Portfolio.sequence := 1 |} in
  Portfolio.rows (PortfolioTracker.execute_close_position db 1 95 2000)
  = [Portfolio.set_closed 95 2000 ((95 - 100) * inject_Z 10) position]
  /\ (95 - 100) * inject_Z 10 == -50
  /\ (100 - 95) * inject_Z 10 == 50
  /\ Portfolio.rows (PortfolioTracker.execute_partial_close db 1 4 95 2000)
     = [Portfolio.set_reduced 6 position;
        PortfolioTracker.closed_lot position 4 95 2000
          ((100 - 95) * inject_Z 4) 2].
Proof.
  repeat split.
Qed.

(** The Long half of C1 holds: closing a Long position stores
    [(exit - entry) * quantity] with the exit price, the exit date and the
    status Closed. *)
Lemma execute_close_position_long (db : Portfolio.DB) (position_id : Z)
  (exit : Q) (now : Z) (r : Portfolio.Row) :
  Portfolio.select_by_id db position_id = [r] ->
  Portfolio.trade_type r = Portfolio.Long ->
  exists r',
    Portfolio.select_by_id
      (PortfolioTracker.execute_close_position db position_id exit now) position_id = [r']
    /\ Portfolio.pnl r'
       = Some ((exit - Portfolio.entry_price r) * inject_Z (Portfolio.quantity r))
    /\ Portfolio.exit_price r' = Some exit
    /\ Portfolio.exit_date r' = Some now
    /\ Portfolio.status r' = Portfolio.Closed
    /\ Portfolio.quantity r' = Portfolio.quantity r.
Proof.
  intros H _. eexists. split.
  - apply execute_close_position_row. exact H.
  - repeat split.
Qed.

(** ** PortfolioTracker.execute_partial_close *)

Section PartialClose.

Import Portfolio PortfolioTracker.

Variables (db : DB) (position_id close_quantity : Z) (exit : Q) (now : Z).
Variables (r : Row) (rest : list Row).
Hypothesis found : select_by_id db position_id = r :: rest.

Let lot_pnl : Q :=
  match trade_type r with
  | Long => (exit - entry_price r) * inject_Z close_quantity
  | Short => (entry_price r - exit) * inject_Z close_quantity
  end.

Lemma execute_partial_close_reduces :
  (0 < quantity r - close_quantity)%Z ->
  execute_partial_close db position_id close_quantity exit now
  = insert (update_by_id db position_id (set_reduced (quantity r - close_quantity)))
           (closed_lot r close_quantity exit now lot_pnl).
Proof.
  intro H. unfold execute_partial_close, execute_partial_close_body.
  rewrite found. simpl.
  assert (E : (quantity r - close_quantity >? 0)%Z = true) by (apply Z.gtb_lt; lia).
  rewrite E. reflexivity.
Qed.

Lemma execute_partial_close_closes :
  (quantity r - close_quantity <= 0)%Z ->
  execute_partial_close db position_id close_quantity exit now
  = execute_close_position db position_id exit now.
Proof.
  intro H. unfold execute_partial_close, execute_partial_close_body.
  rewrite found. simpl.
  assert (E : (quantity r - close_quantity >? 0)%Z = false).
  { destruct (quantity r - close_quantity >? 0)%Z eqn:G; [| reflexivity].
    apply Z.gtb_lt in G. lia. }
  rewrite E. reflexivity.
Qed.

End PartialClose.

(** C5.  A partial close whose quantity is the whole quantity of the
    position leaves the table exactly as [execute_close_position] at the same
    exit price does: no row is inserted and every row keeps its id and its
    quantity, so no zero-quantity remainder appears. *)
Theorem partial_close_of_whole_quantity (db : Portfolio.DB) (position_id : Z)
  (exit : Q) (now : Z) (r : Portfolio.Row) (rest : list Portfolio.Row) :
  Portfolio.select_by_id db position_id = r :: rest ->
  let db' := PortfolioTracker.execute_partial_close db position_id
               (Portfolio.quantity r) exit now in
  db' = PortfolioTracker.execute_close_position db position_id exit now
  /\ List.length (Portfolio.rows db') = List.length (Portfolio.rows db)
  /\ map Portfolio.id (Portfolio.rows db') = map Portfolio.id (Portfolio.rows db)
  /\ map Portfolio.quantity (Portfolio.rows db')
     = map Portfolio.quantity (Portfolio.rows db).
Proof.
  intros H db'.
  assert (E : db' = PortfolioTracker.execute_close_position db position_id exit now).
  { unfold db'. apply (execute_partial_close_closes _ _ _ _ _ _ _ H). lia. }
  destruct (execute_close_position_quantities db position_id exit now) as [Hq Hi].
  rewrite E. repeat split; try assumption.
  rewrite <- (length_map Portfolio.id), Hi. apply length_map.
Qed.

(** Scenario 3 of the specification: the remainder of 25 shares is closed by
    a partial close of 25 at 148. *)
Lemma partial_close_of_whole_quantity_witness :
  let position :=
    Portfolio.set_reduced 25
      (PositionCalculator.open_row "AAPL" 150 145 160 40 1000 Portfolio.Long 1) in
  let db := {| Portfolio.rows := [position]; Portfolio.sequence := 1 |} in
  Portfolio.select_by_id db 1 = [position]
  /\ PortfolioTracker.execute_partial_close db 1 25 148 3000
     = PortfolioTracker.execute_close_position db 1 148 3000.
Proof.
  intros position db.
  assert (H : Portfolio.select_by_id db 1 = [position]) by reflexivity.
  split; [exact H |].
  exact (proj1 (partial_close_of_whole_quantity db 1 148 3000 position [] H)).
Defined.

(** ** Conservation of quantity under partial closes *)

Section Conservation.

Import Portfolio PortfolioTracker.

Lemma quantities_app (l1 l2 : list Row) :
  quantities (l1 ++ l2) = (quantities l1 + quantities l2)%Z.
Proof.
  induction l1 as [| a l1 IH]; simpl; [reflexivity |]. rewrite IH. lia.
Qed.

Lemma filter_other_ids (position_id : Z) (l : list Row) :
  Forall (fun r => id r <> position_id) l ->
  filter (fun r => (id r =? position_id)%Z) l = [].
Proof.
  induction 1 as [| a l Ha _ IH]; simpl; [reflexivity |].
  apply Z.eqb_neq in Ha. now rewrite Ha.
Qed.

Lemma filter_closed_lots (l : list Row) :
  Forall (fun r => status r = Closed) l -> filter is_closed l = l.
Proof.
  unfold is_closed, is_open.
  induction 1 as [| a l Ha _ IH]; simpl; [reflexivity |].
  rewrite Ha. simpl. now rewrite IH.
Qed.

Lemma open_plus_closed (r : Row) :
  (quantities (filter is_open [r]) + quantities (filter is_closed [r])
   = quantity r)%Z.
Proof.
  unfold is_closed, is_open. simpl. destruct (status r); simpl; lia.
Qed.

Variables (db0 : DB) (r0 : Row) (position_id : Z).

Lemma split_state_initial :
  well_formed db0 = true ->
  select_by_id db0 position_id = [r0] ->
  original_quantity r0 = None ->
  split_state db0 r0 position_id db0.
Proof.
  intros Hwf Hsel Horig. exists r0, (rows db0), [].
  rewrite app_nil_r. repeat split; try assumption; try reflexivity.
  - constructor.
  - apply Forall_forall. intros i Hi. apply in_map_iff in Hi.
    destruct Hi as (x & <- & Hx).
    unfold well_formed in Hwf. rewrite forallb_forall in Hwf.
    apply Z.leb_le. exact (Hwf x Hx).
  - simpl. lia.
Qed.

Lemma split_state_select (db : DB) :
  split_state db0 r0 position_id db ->
  exists r, select_by_id db position_id = [r]
            /\ (position_id <= sequence db)%Z.
Proof.
  intros (r & base & lots & Hrows & _ & Hsel & Hlots & Hwf & _).
  exists r. unfold select_by_id. rewrite Hrows, filter_app, Hsel.
  rewrite filter_other_ids.
  - split; [reflexivity |].
    assert (Hin : In r base).
    { assert (Hin' : In r (filter (fun x => (id x =? position_id)%Z) base))
        by (rewrite Hsel; now left).
      apply filter_In in Hin'. tauto. }
    assert (Hid : id r = position_id).
    { assert (Hin' : In r (filter (fun x => (id x =? position_id)%Z) base))
        by (rewrite Hsel; now left).
      apply filter_In in Hin'. apply Z.eqb_eq. tauto. }
    rewrite Forall_forall in Hwf. rewrite <- Hid. apply Hwf.
    apply in_map. rewrite Hrows. apply in_or_app. now left.
  - eapply Forall_impl; [| exact Hlots]. simpl. tauto.
Qed.

(** One partial close keeps the shape and the sum. *)
Lemma split_state_step (db : DB) (close_quantity : Z) (exit : Q) (now : Z) :
  split_state db0 r0 position_id db ->
  split_state db0 r0 position_id
    (execute_partial_close db position_id close_quantity exit now).
Proof.
  intro S. destruct (split_state_select db S) as (r' & Hfound & Hle).
  destruct S as (r & base & lots & Hrows & Hlen & Hsel & Hlots & Hwf & Hsame & Hsum & Horig).
  assert (Hr : r' = r).
  { unfold select_by_id in Hfound. rewrite Hrows, filter_app, Hsel in Hfound.
    rewrite filter_other_ids in Hfound
      by (eapply Forall_impl; [| exact Hlots]; simpl; tauto).
    simpl in Hfound. congruence. }
  subst r'.
  assert (Hother : Forall (fun x => id x <> position_id) lots)
    by (eapply Forall_impl; [| exact Hlots]; simpl; tauto).
  destruct (Z_lt_le_dec 0 (quantity r - close_quantity)) as [Hpos | Hnon].
  - (* the position is reduced and a lot is inserted *)
    rewrite (execute_partial_close_reduces db position_id close_quantity exit now
               r [] Hfound Hpos).
    set (p := match trade_type r with
              | Long => (exit - entry_price r) * inject_Z close_quantity
              | Short => (entry_price r - exit) * inject_Z close_quantity
              end).
    set (lot := closed_lot r close_quantity exit now p (sequence db + 1)).
    exists (set_reduced (quantity r - close_quantity) r),
           (map (fun x => if (id x =? position_id)%Z
                          then set_reduced (quantity r - close_quantity) x
                          else x) base),
           (lots ++ [lot]).
    split; [| split; [| split; [| split; [| split; [| split; [| split]]]]]].
    + unfold insert, update_by_id. simpl. rewrite Hrows, map_app.
      rewrite (update_elsewhere position_id _ lots Hother).
      now rewrite <- app_assoc.
    + rewrite length_map. exact Hlen.
    + rewrite filter_id_update by (intro; reflexivity). now rewrite Hsel.
    + apply Forall_app. split; [exact Hlots |].
      constructor; [| constructor]. simpl. split; [lia |]. split; [reflexivity |].
      destruct Hsame as (H1 & H2 & H3 & H4). repeat split; assumption.
    + unfold insert, update_by_id. simpl. rewrite map_app. simpl.
      rewrite update_ids by (intro; reflexivity).
      apply Forall_app. split.
      * eapply Forall_impl; [| exact Hwf]. simpl. intros. lia.
      * constructor; [lia | constructor].
    + exact Hsame.
    + rewrite quantities_app. simpl. lia.
    + simpl. destruct lots as [| l0 lots']; simpl in *.
      * rewrite Horig. simpl. f_equal. lia.
      * rewrite Horig. reflexivity.
  - (* the whole remainder is closed *)
    rewrite (execute_partial_close_closes db position_id close_quantity exit now
               r [] Hfound) by lia.
    rewrite (execute_close_position_found db position_id exit now r [] Hfound).
    set (p := (exit - entry_price r) * inject_Z (quantity r)).
    exists (set_closed exit now p r),
           (map (fun x => if (id x =? position_id)%Z
                          then set_closed exit now p x else x) base),
           lots.
    split; [| split; [| split; [| split; [| split; [| split; [| split]]]]]].
    + unfold update_by_id. simpl. rewrite Hrows, map_app.
      now rewrite (update_elsewhere position_id _ lots Hother).
    + rewrite length_map. exact Hlen.
    + rewrite filter_id_update by (intro; reflexivity). now rewrite Hsel.
    + exact Hlots.
    + unfold update_by_id. simpl.
      rewrite update_ids by (intro; reflexivity). exact Hwf.
    + exact Hsame.
    + exact Hsum.
    + exact Horig.
Qed.

Lemma split_state_partial_closes (ops : list (Z * Q * Z)) (db : DB) :
  split_state db0 r0 position_id db ->
  split_state db0 r0 position_id (partial_closes db position_id ops).
Proof.
  revert db. induction ops as [| [[q exit] now] ops IH]; intros db S.
  - exact S.
  - apply (IH (execute_partial_close db position_id q exit now)).
    apply split_state_step. exact S.
Qed.

End Conservation.

(** C4.  Start from a table [db0] in which position [position_id] is the row
    [r0], not yet reduced.  After every prefix of every sequence of partial
    closes of that position, the quantity still open plus the quantities of
    the closed lots derived from it (the lots inserted by the closes, each a
    Closed row with the entry of [r0], and the position's own row once it is
    closed) is the quantity of [r0]; the position's [original_quantity] is
    null until the first reduction and from then on is that quantity. *)
Theorem partial_closes_conserve_quantity (db0 : Portfolio.DB) (r0 : Portfolio.Row)
  (position_id : Z) (ops : list (Z * Q * Z)) (n : nat) :
  PortfolioTracker.well_formed db0 = true ->
  Portfolio.select_by_id db0 position_id = [r0] ->
  Portfolio.original_quantity r0 = None ->
  let db := PortfolioTracker.partial_closes db0 position_id (firstn n ops) in
  (PortfolioTracker.live_quantity db position_id
   + PortfolioTracker.settled_quantity db0 db position_id
   = Portfolio.quantity r0)%Z
  /\ Forall (fun lot => Portfolio.status lot = Portfolio.Closed
                        /\ PortfolioTracker.same_entry r0 lot)
            (PortfolioTracker.inserted_since db0 db)
  /\ exists r,
       Portfolio.select_by_id db position_id = [r]
       /\ Portfolio.original_quantity r
          = match PortfolioTracker.inserted_since db0 db with
            | [] => None
            | _ :: _ => Some (Portfolio.quantity r0)
            end.
Proof.
  intros Hwf Hsel Horig db.
  pose proof (split_state_partial_closes db0 r0 position_id (firstn n ops) db0
                (split_state_initial db0 r0 position_id Hwf Hsel Horig)) as S.
  fold db in S.
  destruct (split_state_select db0 r0 position_id db S) as (r' & Hfound & _).
  destruct S as (r & base & lots & Hrows & Hlen & Hbase & Hlots & _ & _ & Hsum & Ho).
  assert (Hother : Forall (fun x => Portfolio.id x <> position_id) lots)
    by (eapply Forall_impl; [| exact Hlots]; simpl; tauto).
  assert (Hr : r' = r).
  { unfold Portfolio.select_by_id in Hfound.
    rewrite Hrows, filter_app, Hbase in Hfound.
    rewrite (filter_other_ids position_id lots Hother) in Hfound.
    simpl in Hfound. congruence. }
  subst r'.
  assert (Hins : PortfolioTracker.inserted_since db0 db = lots).
  { unfold PortfolioTracker.inserted_since. rewrite Hrows, <- Hlen.
    rewrite skipn_app, skipn_all, Nat.sub_diag. reflexivity. }
  assert (Hclosed : Forall (fun x => Portfolio.status x = Portfolio.Closed) lots)
    by (eapply Forall_impl; [| exact Hlots]; simpl; tauto).
  split; [| split].
  - unfold PortfolioTracker.live_quantity, PortfolioTracker.settled_quantity.
    rewrite Hfound, Hins, (filter_closed_lots lots Hclosed).
    pose proof (open_plus_closed r). lia.
  - rewrite Hins. eapply Forall_impl; [| exact Hlots]. simpl. tauto.
  - exists r. split; [exact Hfound |]. rewrite Hins. exact Ho.
Qed.

(** Scenarios 2 and 3 of the specification: 40 shares, 15 closed at 155, then
    the remaining 25 closed at 148. *)
Lemma partial_closes_conserve_quantity_witness :
  let r0 := PositionCalculator.open_row "AAPL" 150 145 160 40 1000 Portfolio.Long 1 in
  let db0 := {| Portfolio.rows := [r0]; Portfolio.sequence := 1 |} in
  let ops := [(15%Z, 155, 2000%Z); (25%Z, 148, 3000%Z)] in
  (PortfolioTracker.well_formed db0 = true
   /\ Portfolio.select_by_id db0 1 = [r0]
   /\ Portfolio.original_quantity r0 = None)
  /\ (PortfolioTracker.live_quantity (PortfolioTracker.partial_closes db0 1 (firstn 1 ops)) 1
      + PortfolioTracker.settled_quantity db0
          (PortfolioTracker.partial_closes db0 1 (firstn 1 ops)) 1 = 40)%Z
  /\ (PortfolioTracker.live_quantity (PortfolioTracker.partial_closes db0 1 (firstn 2 ops)) 1
      + PortfolioTracker.settled_quantity db0
          (PortfolioTracker.partial_closes db0 1 (firstn 2 ops)) 1 = 40)%Z.
Proof.
  intros r0 db0 ops.
  assert (H1 : PortfolioTracker.well_formed db0 = true) by reflexivity.
  assert (H2 : Portfolio.select_by_id db0 1 = [r0]) by reflexivity.
  assert (H3 : Portfolio.original_quantity r0 = None) by reflexivity.
  split; [repeat split |]. split.
  - exact (proj1 (partial_closes_conserve_quantity db0 r0 1 ops 1 H1 H2 H3)).
  - exact (proj1 (partial_closes_conserve_quantity db0 r0 1 ops 2 H1 H2 H3)).
Defined.

(** ** PositionCalculator: opening a position, on numbers *)

Section OpenPosition.

Import Portfolio PositionCalculator.

Variable self : PositionCalculator.t.
Variables entry stop take : Q.
Hypothesis entry_field : entry_price_var self = Some entry.
Hypothesis stop_field : stop_loss_var self = Some stop.
Hypothesis take_field : take_profit_var self = Some take.

Let sym : string := PyStr.upper (PyStr.strip (symbol_var self)).

Lemma save_trade_spec (position_size now : Z) (db : DB) :
  save_trade self position_size now db
  = if PyStr.is_empty sym || Py.le entry 0 || Py.le stop 0 || Py.le take 0
    then db
    else insert db (open_row sym entry stop take position_size now
                             (PositionCalculator.trade_type self)).
Proof.
  unfold save_trade, save_trade_body.
  rewrite entry_field, stop_field, take_field. simpl. fold sym.
  destruct (PyStr.is_empty sym || Py.le entry 0 || Py.le stop 0 || Py.le take 0);
    reflexivity.
Qed.


End OpenPosition.

(** ** PositionCalculator: opening a position *)

Section OpenPosition64.

Import Binary64.

Lemma f64_positive_not_zero (x : F64.t) :
  F64.gtb x F64.zero = true -> F64.eqb x F64.zero = false.
Proof.
  destruct x as [[]|[]| |[] m e]; simpl; intro H; try discriminate; reflexivity.
Qed.

(** The metrics are returned unless the size is too large for a float or the
    balance is a zero. *)
Lemma calculate_risk_metrics_none (rm : RiskManagement.t) (position_size : Z)
  (entry stop take : F64.t) :
  RiskManagement.calculate_risk_metrics rm position_size entry stop take = None
  <-> (F64.of_int position_size = Py.Raise Py.OverflowError
       \/ F64.eqb (RiskManagement.account_balance rm) F64.zero = true).
Proof.
  unfold RiskManagement.calculate_risk_metrics,
    RiskManagement.calculate_risk_metrics_body.
  assert (O : forall n, F64.of_int n = Py.Raise Py.OverflowError
                        \/ exists x, F64.of_int n = Py.Ok x).
  { intro n. unfold F64.of_int. destruct (F64.of_Z n); eauto. }
  destruct (O position_size) as [E | [size E]]; rewrite E; cbn [Py.bind Py.catch].
  - split; [intros _; left; reflexivity | reflexivity].
  - set (risk := F64.abs (F64.sub entry stop)).
    set (reward := F64.abs (F64.sub take entry)).
    assert (R : exists ratio,
              (if F64.gtb risk F64.zero then F64.truediv reward risk
               else Py.Ok F64.zero) = Py.Ok ratio).
    { destruct (F64.gtb risk F64.zero) eqn:G; [| eauto].
      unfold F64.truediv. rewrite (f64_positive_not_zero risk G). eauto. }
    destruct R as [ratio R]. rewrite R. cbn [Py.bind].
    unfold F64.truediv.
    destruct (F64.eqb (RiskManagement.account_balance rm) F64.zero);
      cbn [Py.bind Py.catch].
    + split; [intros _; right; reflexivity | reflexivity].
    + split; [discriminate | intros [H | H]; discriminate].
Qed.

Variable upper : list N -> list N.
Variable stdout_accepts : list N -> bool.
Variable self : PositionCalculator.t.
Variables (now : Z) (db : Table.DB).

Lemma save_trade_cases (position_size : Z) (entry stop take : F64.t) :
  PositionCalculator.entry_price_var self = Some entry ->
  PositionCalculator.stop_loss_var self = Some stop ->
  PositionCalculator.take_profit_var self = Some take ->
  let sym := upper (Unicode.strip (PositionCalculator.symbol_var self)) in
  PositionCalculator.save_trade upper stdout_accepts self position_size now db
  = if negb (Unicode.is_empty sym)
       && negb (F64.leb entry F64.zero) && negb (F64.leb stop F64.zero)
       && negb (F64.leb take F64.zero)
       && stdout_accepts sym && Unicode.encodable sym
       && Table.int64 position_size
       && negb (F64.is_nan entry)
    then Table.insert db
           (PositionCalculator.open_row sym entry stop take position_size now
              (PositionCalculator.trade_type self))
    else db.
Proof.
  intros He Hs Ht sym.
  unfold PositionCalculator.save_trade, PositionCalculator.save_trade_body.
  rewrite He, Hs, Ht. cbn [PositionCalculator.float Py.bind]. fold sym.
  destruct (Unicode.is_empty sym); [reflexivity |].
  destruct (F64.leb entry F64.zero); [reflexivity |].
  destruct (F64.leb stop F64.zero); [reflexivity |].
  destruct (F64.leb take F64.zero); [reflexivity |].
  destruct (stdout_accepts sym); [| reflexivity].
  destruct (Unicode.encodable sym); [| reflexivity].
  destruct (Table.int64 position_size); [| reflexivity].
  destruct (F64.is_nan entry); reflexivity.
Qed.

(** A price field that [float] rejects: ValueError, a warning is shown and
    nothing is saved. *)
Lemma calculate_position_field_rejected (confirm : bool) :
  PositionCalculator.entry_price_var self = None
  \/ PositionCalculator.stop_loss_var self = None
  \/ PositionCalculator.take_profit_var self = None ->
  PositionCalculator.calculate_position upper stdout_accepts self confirm now db = db.
Proof.
  unfold PositionCalculator.calculate_position,
    PositionCalculator.calculate_position_body.
  intros [H | [H | H]]; rewrite H;
    destruct (PositionCalculator.entry_price_var self);
    destruct (PositionCalculator.stop_loss_var self);
    destruct (PositionCalculator.take_profit_var self); reflexivity.
Qed.

Lemma calculate_position_cases (confirm : bool) (entry stop take : F64.t) :
  PositionCalculator.entry_price_var self = Some entry ->
  PositionCalculator.stop_loss_var self = Some stop ->
  PositionCalculator.take_profit_var self = Some take ->
  let rm := PositionCalculator.risk_manager self in
  let size := RiskManagement.calculate_position_size rm entry stop in
  PositionCalculator.calculate_position upper stdout_accepts self confirm now db
  = if negb (F64.leb entry F64.zero) && negb (F64.leb stop F64.zero)
       && negb (F64.leb take F64.zero)
       && match RiskManagement.calculate_risk_metrics rm size entry stop take with
          | Some _ => true
          | None => false
          end
       && confirm
    then PositionCalculator.save_trade upper stdout_accepts self size now db
    else db.
Proof.
  intros He Hs Ht rm size.
  unfold PositionCalculator.calculate_position,
    PositionCalculator.calculate_position_body.
  rewrite He, Hs, Ht. cbn [PositionCalculator.float Py.bind]. fold rm. fold size.
  destruct (F64.leb entry F64.zero); [reflexivity |].
  destruct (F64.leb stop F64.zero); [reflexivity |].
  destruct (F64.leb take F64.zero); [reflexivity |].
  cbn [negb orb andb].
  destruct (RiskManagement.calculate_risk_metrics rm size entry stop take);
    [| reflexivity].
  destruct confirm; reflexivity.
Qed.

End OpenPosition64.

(** C2 (as amended).  Opening a position never consults [validate_trade].
    [calculate_position] inserts a row exactly when the three price fields
    are floats none of which is [<= 0] (a NaN passes this test), the risk
    metrics are returned (the position size converts to a float and the
    account balance is not zero), the user confirms, the stripped and
    upper-cased symbol is not empty, can be printed and can be encoded, the
    position size fits SQLite's 64-bit INTEGER and the entry price is not
    NaN (which SQLite would store as NULL in a NOT NULL column).  The row is
    Open, has the computed position size as quantity, and holds a NaN stop
    loss or take profit as NULL.  In every other case the table is left as
    it was. *)
Theorem calculate_position_spec (upper : list N -> list N)
  (stdout_accepts : list N -> bool)
  (self : Binary64.PositionCalculator.t) (confirm : bool) (now : Z)
  (db : Binary64.Table.DB) :
  let rm := Binary64.PositionCalculator.risk_manager self in
  let sym := upper (Unicode.strip (Binary64.PositionCalculator.symbol_var self)) in
  let db' :=
    Binary64.PositionCalculator.calculate_position upper stdout_accepts self
      confirm now db in
  let size (entry stop : F64.t) : Z :=
    Binary64.RiskManagement.calculate_position_size rm entry stop in
  let opens (entry stop take : F64.t) : Prop :=
    Binary64.PositionCalculator.entry_price_var self = Some entry
    /\ Binary64.PositionCalculator.stop_loss_var self = Some stop
    /\ Binary64.PositionCalculator.take_profit_var self = Some take
    /\ F64.leb entry F64.zero = false
    /\ F64.leb stop F64.zero = false
    /\ F64.leb take F64.zero = false
    /\ F64.of_int (size entry stop) <> Py.Raise Py.OverflowError
    /\ F64.eqb (Binary64.RiskManagement.account_balance rm) F64.zero = false
    /\ confirm = true
    /\ sym <> []
    /\ stdout_accepts sym = true
    /\ Unicode.encodable sym = true
    /\ Binary64.Table.int64 (size entry stop) = true
    /\ F64.is_nan entry = false in
  (forall entry stop take,
     opens entry stop take ->
     db' = Binary64.Table.insert db
             (Binary64.PositionCalculator.open_row sym entry stop take
                (size entry stop) now
                (Binary64.PositionCalculator.trade_type self)))
  /\ ((~ exists entry stop take, opens entry stop take) -> db' = db).
Proof.
  intros rm sym db' size opens. split.
  - intros entry stop take
      (He & Hs & Ht & L1 & L2 & L3 & O & B & C & S & P & U & I & N).
    unfold db'.
    rewrite (calculate_position_cases upper stdout_accepts self now db confirm
               entry stop take He Hs Ht).
    fold rm. fold (size entry stop). rewrite L1, L2, L3, C.
    destruct (Binary64.RiskManagement.calculate_risk_metrics rm (size entry stop)
                entry stop take) eqn:M.
    + cbn [negb andb].
      rewrite (save_trade_cases upper stdout_accepts self now db _ entry stop
                 take He Hs Ht).
      fold sym. rewrite L1, L2, L3, P, U, I, N.
      destruct sym; [contradiction |]. reflexivity.
    + apply calculate_risk_metrics_none in M. destruct M as [M | M].
      * contradiction.
      * rewrite B in M. discriminate.
  - intro No. unfold opens in No. clear opens. unfold db'.
    destruct (Binary64.PositionCalculator.entry_price_var self) as [entry |] eqn:He;
      [| apply calculate_position_field_rejected; tauto].
    destruct (Binary64.PositionCalculator.stop_loss_var self) as [stop |] eqn:Hs;
      [| apply calculate_position_field_rejected; tauto].
    destruct (Binary64.PositionCalculator.take_profit_var self) as [take |] eqn:Ht;
      [| apply calculate_position_field_rejected; tauto].
    rewrite (calculate_position_cases upper stdout_accepts self now db confirm
               entry stop take He Hs Ht).
    fold rm. fold (size entry stop).
    rewrite (save_trade_cases upper stdout_accepts self now db _ entry stop take
               He Hs Ht).
    fold sym.
    destruct (F64.leb entry F64.zero) eqn:L1; [reflexivity |].
    destruct (F64.leb stop F64.zero) eqn:L2; [reflexivity |].
    destruct (F64.leb take F64.zero) eqn:L3; [reflexivity |].
    destruct (Binary64.RiskManagement.calculate_risk_metrics rm (size entry stop)
                entry stop take) eqn:M; [| reflexivity].
    destruct confirm; [| reflexivity].
    cbn [negb andb].
    destruct (Unicode.is_empty sym) eqn:S; [reflexivity |].
    destruct (stdout_accepts sym) eqn:P; [| reflexivity].
    destruct (Unicode.encodable sym) eqn:U; [| reflexivity].
    destruct (Binary64.Table.int64 (size entry stop)) eqn:I; [| reflexivity].
    destruct (F64.is_nan entry) eqn:N; [reflexivity |].
    exfalso. apply No. exists entry, stop, take.
    assert (M' : Binary64.RiskManagement.calculate_risk_metrics rm
                   (size entry stop) entry stop take <> None)
      by (rewrite M; discriminate).
    assert (O : F64.of_int (size entry stop) <> Py.Raise Py.OverflowError).
    { intro E. apply M'. apply calculate_risk_metrics_none. left. exact E. }
    assert (B : F64.eqb (Binary64.RiskManagement.account_balance rm) F64.zero
                = false).
    { destruct (F64.eqb (Binary64.RiskManagement.account_balance rm) F64.zero)
        eqn:E; [| reflexivity].
      exfalso. apply M'. apply calculate_risk_metrics_none. right. exact E. }
    repeat (split; [first [reflexivity | assumption] |]).
    split; [destruct sym; discriminate |].
    repeat (split; [first [reflexivity | assumption] |]). assumption.
Qed.

(** The form " aapl ", entry 150, stop 145, take-profit 160, Long, on the
    default account of 10000 at 2%, confirmed, with a standard output in
    UTF-8: 40 shares of AAPL are saved. *)
Lemma calculate_position_spec_witness :
  let self :=
    {| Binary64.PositionCalculator.risk_manager :=
         Binary64.RiskManagement.init (F64.of_Z 10000);
       Binary64.PositionCalculator.symbol_var := Unicode.of_string " aapl ";
       Binary64.PositionCalculator.entry_price_var := Some (F64.of_Z 150);
       Binary64.PositionCalculator.stop_loss_var := Some (F64.of_Z 145);
       Binary64.PositionCalculator.take_profit_var := Some (F64.of_Z 160);
       Binary64.PositionCalculator.trade_type := Portfolio.Long |} in
  Binary64.PositionCalculator.calculate_position Unicode.upper_ascii
    Unicode.encodable self true 1000 Binary64.Table.empty
  = Binary64.Table.insert Binary64.Table.empty
      (Binary64.PositionCalculator.open_row (Unicode.of_string "AAPL")
         (F64.of_Z 150) (F64.of_Z 145) (F64.of_Z 160) 40 1000 Portfolio.Long).
Proof.
  intro self.
  pose proof (proj1 (calculate_position_spec Unicode.upper_ascii
                       Unicode.encodable self true 1000 Binary64.Table.empty)
                (F64.of_Z 150) (F64.of_Z 145) (F64.of_Z 160)) as H.
  assert (O : F64.of_int 40 <> Py.Raise Py.OverflowError)
    by (vm_compute; discriminate).
  vm_compute in H |- *. apply H.
  repeat (split; [first [reflexivity | discriminate | exact O] |]). reflexivity.
Defined.

(** C2 (as stated) fails: [validate_trade] rejects entry 150, stop 145,
    take-profit 151 (the ratio is 0.2), and the trade is saved all the same,
    with 40 shares. *)
Lemma calculate_position_saves_rejected_trade :
  let self :=
    {| Binary64.PositionCalculator.risk_manager :=
         Binary64.RiskManagement.init (F64.of_Z 10000);
       Binary64.PositionCalculator.symbol_var := Unicode.of_string "aapl";
       Binary64.PositionCalculator.entry_price_var := Some (F64.of_Z 150);
       Binary64.PositionCalculator.stop_loss_var := Some (F64.of_Z 145);
       Binary64.PositionCalculator.take_profit_var := Some (F64.of_Z 151);
       Binary64.PositionCalculator.trade_type := Portfolio.Long |} in
  ~ (fst (Binary64.RiskManagement.validate_trade
            (Binary64.PositionCalculator.risk_manager self)
            (F64.of_Z 150) (F64.of_Z 145) (F64.of_Z 151)) = false ->
     Binary64.PositionCalculator.calculate_position Unicode.upper_ascii
       Unicode.encodable self true 1000 Binary64.Table.empty
     = Binary64.Table.empty).
Proof.
  intros self H. specialize (H eq_refl). vm_compute in H. discriminate.
Qed.

(** What the entry form lets through.  A take profit 'nan' is saved as NULL;
    with entry 0.1 and stop 0.10000000000000002 the size is
    14411518807585587200, beyond 64 bits, and nothing is saved; a symbol
    that is a no-break space is empty once stripped, and nothing is saved. *)
Example calculate_position_edge_cases :
  let form symbol entry stop take :=
    {| Binary64.PositionCalculator.risk_manager :=
         Binary64.RiskManagement.init (F64.of_Z 10000);
       Binary64.PositionCalculator.symbol_var := symbol;
       Binary64.PositionCalculator.entry_price_var := Some entry;
       Binary64.PositionCalculator.stop_loss_var := Some stop;
       Binary64.PositionCalculator.take_profit_var := Some take;
       Binary64.PositionCalculator.trade_type := Portfolio.Long |} in
  let run self :=
    Binary64.PositionCalculator.calculate_position Unicode.upper_ascii
      Unicode.encodable self true 1000 Binary64.Table.empty in
  map Binary64.Table.take_profit
    (Binary64.Table.rows
       (run (form (Unicode.of_string "AAPL") (F64.of_Z 150) (F64.of_Z 145) F64.nan)))
  = [None]
  /\ Binary64.RiskManagement.calculate_position_size
       (Binary64.RiskManagement.init (F64.of_Z 10000))
       (F64.of_Q (1 # 10)) (F64.of_Q (10000000000000002 # 100000000000000000))
     = 14411518807585587200%Z
  /\ run (form (Unicode.of_string "AAPL") (F64.of_Q (1 # 10))
            (F64.of_Q (10000000000000002 # 100000000000000000)) (F64.of_Z 1))
     = Binary64.Table.empty
  /\ run (form [160%N] (F64.of_Z 150) (F64.of_Z 145) (F64.of_Z 160))
     = Binary64.Table.empty.
Proof. vm_compute. repeat split. Qed.

(** ** MarketDataManager.calculate_atr on a short history *)

Section ShortHistory.

Import MarketDataManager.

Lemma window_mean_short (window : nat) (w : list pyfloat) :
  (List.length w < window)%nat -> window_mean window w = NaN.
Proof.
  intro H. unfold window_mean. destruct window as [| k]; [reflexivity |].
  apply Nat.ltb_lt in H. now rewrite H.
Qed.

Lemma rolling_mean_short (window : nat) (xs : list pyfloat) :
  (List.length xs < window)%nat ->
  rolling_mean window xs = map (fun _ => NaN) (seq 0 (List.length xs)).
Proof.
  intro H. unfold rolling_mean. apply map_ext. intro i.
  apply window_mean_short.
  rewrite length_skipn, length_firstn. lia.
Qed.

Lemma iloc_last_constant {A : Type} (c : A) (n : nat) :
  iloc_last (map (fun _ => c) (seq 0 (S n))) = Py.Ok c.
Proof.
  unfold iloc_last. rewrite seq_S, map_app, rev_app_distr. reflexivity.
Qed.

Lemma true_range_length (data : list Bar) :
  List.length (true_range data) = List.length data.
Proof.
  unfold true_range, shift1.
  rewrite length_map, length_combine, length_firstn. simpl.
  rewrite !length_map. lia.
Qed.

(** A history that is not empty and shorter than the window gives NaN, not
    [None]. *)
Lemma calculate_atr_short_history (data : list Bar) (period : nat) :
  data <> [] -> (List.length data < period)%nat ->
  calculate_atr data period = Some NaN.
Proof.
  intros Hne Hlen. unfold calculate_atr.
  destruct data as [| b data']; [contradiction |].
  rewrite rolling_mean_short by (rewrite true_range_length; exact Hlen).
  rewrite true_range_length. simpl List.length.
  rewrite iloc_last_constant. reflexivity.
Qed.

(** Only an empty history (or an exception) gives [None]. *)
Lemma calculate_atr_empty_history (period : nat) : calculate_atr [] period = None.
Proof. reflexivity. Qed.

End ShortHistory.

(** The label says "not available" only when [calculate_atr] returns [None];
    with a symbol on the form and a history that is not empty but shorter
    than the window of 14, the label shows the NaN as the current ATR. *)
Lemma calculate_atr_stop_loss_label (self : PositionCalculator.t)
  (history : list MarketDataManager.Bar) :
  PyStr.is_empty (PyStr.upper (PositionCalculator.symbol_var self)) = false ->
  history <> [] -> (List.length history < 14)%nat ->
  PositionCalculator.atr_value_label
    (PositionCalculator.calculate_atr_stop_loss self history)
  = Some (PositionCalculator.CurrentATR MarketDataManager.NaN).
Proof.
  intros Hsym Hne Hlen. unfold PositionCalculator.calculate_atr_stop_loss.
  rewrite Hsym, (calculate_atr_short_history history 14 Hne Hlen).
  destruct (PositionCalculator.stop_loss_type self); [reflexivity |].
  destruct (PositionCalculator.entry_price_var self);
    destruct (PositionCalculator.atr_multiplier_var self); reflexivity.
Qed.

(** C7, evaluated where the code departs from the claim.  With five bars of
    history and the default window of 14, [calculate_atr] returns NaN rather
    than [None]; the ATR stop-loss strategy then shows "Current ATR: $nan"
    and writes the stop loss "nan" instead of reporting "ATR: Not
    Available", which it does report for an empty history. *)
Theorem calculate_atr_stop_loss_short_history :
  let bar h l c :=
    {| MarketDataManager.High := h; MarketDataManager.Low := l;
       MarketDataManager.Close := c |} in
  let history :=
    [bar 101 99 100; bar 102 100 101; bar 103 100 102; bar 104 101 103;
     bar 105 102 104] in
  let self :=
    {| PositionCalculator.risk_manager := RiskManagement.init 10000;
       PositionCalculator.symbol_var := "AAPL";
       PositionCalculator.entry_price_var := Some 104;
       PositionCalculator.stop_loss_var := None;
       PositionCalculator.take_profit_var := None;
       PositionCalculator.atr_multiplier_var := Some 2;
       PositionCalculator.trade_type := Portfolio.Long;
       PositionCalculator.stop_loss_type := PositionCalculator.ATR |} in
  MarketDataManager.calculate_atr history 14 = Some MarketDataManager.NaN
  /\ PositionCalculator.calculate_atr_stop_loss self history
     = {| PositionCalculator.atr_value_label :=
            Some (PositionCalculator.CurrentATR MarketDataManager.NaN);
          PositionCalculator.stop_loss_written := Some MarketDataManager.NaN;
          PositionCalculator.error_shown := false |}
  /\ PositionCalculator.atr_value_label
       (PositionCalculator.calculate_atr_stop_loss self [])
     = Some PositionCalculator.NotAvailable.
Proof.
  repeat split.
Qed.

(** ** StatisticsTab.calculate_statistics *)

Section Statistics.

Import StatisticsTab.

Lemma len_nonzero {A : Type} (xs : list A) : nonempty xs = true -> ~ Py.len xs == 0.
Proof.
  destruct xs as [| x xs]; [discriminate |]. intros _ H.
  unfold Py.len, Qeq in H. simpl in H. lia.
Qed.

Lemma mean_or_zero_ok (xs : list Q) : exists q, mean_or_zero xs = Py.Ok q.
Proof.
  unfold mean_or_zero. destruct (nonempty xs) eqn:E.
  - eexists. apply truediv_ok, len_nonzero, E.
  - eexists. reflexivity.
Qed.

Lemma rr_ratios_ok (trades : list Trade) : exists qs, rr_ratios trades = Py.Ok qs.
Proof.
  induction trades as [| trade rest [qs IH]].
  - eexists. reflexivity.
  - cbn [rr_ratios]. rewrite IH.
    match goal with
    | |- exists _, Py.bind ?h _ = _ => assert (Hh : exists l, h = Py.Ok l)
    end.
    { destruct (truthy (entry_price trade) && truthy_opt (stop_loss trade)
                && truthy_opt (take_profit trade));
        [| eexists; reflexivity].
      destruct (stop_loss trade) as [stop |], (take_profit trade) as [take |];
        try (eexists; reflexivity).
      destruct (Py.gt (Qabs (entry_price trade - stop)) 0) eqn:G;
        [| eexists; reflexivity].
      apply py_gt_true in G. rewrite truediv_ok.
      - eexists. reflexivity.
      - intro E. rewrite E in G. discriminate. }
    destruct Hh as [l Hl]. rewrite Hl. eexists. reflexivity.
Qed.

(** The body never raises: every division is guarded.  The counts, the win
    rate and the profit factor it computes. *)
Lemma calculate_statistics_body_ok (trades : list Trade) :
  exists s,
    calculate_statistics_body trades = Py.Ok s
    /\ total_trades s = List.length trades
    /\ winning_trades s = List.length (profits_of trades)
    /\ losing_trades s = List.length (losses_of trades)
    /\ win_rate s = (if (0 <? List.length trades)%nat
                     then Py.len (profits_of trades) / Py.len trades * 100
                     else 0)
    /\ profit_factor s
       = (if nonempty (losses_of trades) && Py.gt (Py.sum (losses_of trades)) 0
          then Finite (Py.sum (profits_of trades) / Py.sum (losses_of trades))
          else Infinity).
Proof.
  unfold calculate_statistics_body.
  fold (profits_of trades). fold (losses_of trades).
  assert (Hrate :
    (if (0 <? List.length trades)%nat
     then (q <- Py.truediv (Py.len (profits_of trades)) (Py.len trades) ;;
           Py.Ok (q * 100))
     else Py.Ok 0)
    = Py.Ok (if (0 <? List.length trades)%nat
             then Py.len (profits_of trades) / Py.len trades * 100
             else 0)).
  { destruct (0 <? List.length trades)%nat eqn:E; [| reflexivity].
    rewrite truediv_ok; [reflexivity |].
    apply len_nonzero. destruct trades; [discriminate | reflexivity]. }
  assert (Hfactor :
    (if nonempty (losses_of trades) && Py.gt (Py.sum (losses_of trades)) 0
     then (q <- Py.truediv (Py.sum (profits_of trades))
                  (Py.sum (losses_of trades)) ;;
           Py.Ok (Finite q))
     else Py.Ok Infinity)
    = Py.Ok (if nonempty (losses_of trades)
                && Py.gt (Py.sum (losses_of trades)) 0
             then Finite (Py.sum (profits_of trades) / Py.sum (losses_of trades))
             else Infinity)).
  { destruct (nonempty (losses_of trades)); simpl; [| reflexivity].
    destruct (Py.gt (Py.sum (losses_of trades)) 0) eqn:G; [| reflexivity].
    apply py_gt_true in G. rewrite truediv_ok; [reflexivity |].
    intro E. rewrite E in G. discriminate. }
  rewrite Hrate, Hfactor. simpl.
  destruct (mean_or_zero_ok (profits_of trades)) as [w Hw]. rewrite Hw. simpl.
  destruct (mean_or_zero_ok (losses_of trades)) as [l Hl]. rewrite Hl. simpl.
  destruct (rr_ratios_ok trades) as [qs Hqs]. rewrite Hqs. simpl.
  destruct (mean_or_zero_ok qs) as [rr Hrr]. rewrite Hrr. simpl.
  destruct (mean_or_zero_ok (hold_times trades)) as [h Hh]. rewrite Hh. simpl.
  eexists. split; [reflexivity |]. simpl. repeat split.
Qed.

Lemma calculate_statistics_shown (trades : list Trade) :
  trades <> [] ->
  exists s,
    calculate_statistics trades = Shown s
    /\ calculate_statistics_body trades = Py.Ok s.
Proof.
  intro Hne. destruct (calculate_statistics_body_ok trades) as (s & Hs & _).
  exists s. split; [| exact Hs].
  unfold calculate_statistics. destruct trades; [contradiction |].
  rewrite Hs. reflexivity.
Qed.



End Statistics.






(** ** The scenarios of the specification, evaluated *)

(** Scenario 1: entry 150, stop 145, take-profit 160, balance 10000 at 2%:
    40 shares, and the trade passes validation. *)
Example scenario_size_and_validation :
  Binary64.RiskManagement.calculate_position_size
    (Binary64.RiskManagement.init (F64.of_Z 10000)) (F64.of_Z 150) (F64.of_Z 145)
  = 40%Z
  /\ Binary64.RiskManagement.validate_trade
       (Binary64.RiskManagement.init (F64.of_Z 10000))
       (F64.of_Z 150) (F64.of_Z 145) (F64.of_Z 160)
     = (true, Binary64.RiskManagement.ValidationSuccessful).
Proof. vm_compute. split; reflexivity. Qed.

(** Scenarios 2 and 3: 15 of 40 shares closed at 155, then the remaining 25
    closed at 148: pnl 75 on the lot, -50 on the remainder, 40 shares
    settled. *)
Example scenario_split_then_close :
  let r0 := PositionCalculator.open_row "AAPL" 150 145 160 40 1000 Portfolio.Long 1 in
  let db0 := {| Portfolio.rows := [r0]; Portfolio.sequence := 1 |} in
  let db1 := PortfolioTracker.execute_partial_close db0 1 15 155 2000 in
  let db2 := PortfolioTracker.execute_partial_close db1 1 25 148 3000 in
  map Portfolio.quantity (Portfolio.rows db1) = [25%Z; 15%Z]
  /\ map Portfolio.original_quantity (Portfolio.rows db1) = [Some 40%Z; Some 15%Z]
  /\ map Portfolio.status (Portfolio.rows db1) = [Portfolio.Open; Portfolio.Closed]
  /\ map Portfolio.pnl (Portfolio.rows db2) = [Some (-50); Some 75]
  /\ map Portfolio.status (Portfolio.rows db2) = [Portfolio.Closed; Portfolio.Closed]
  /\ PortfolioTracker.live_quantity db2 1 = 0%Z
  /\ PortfolioTracker.settled_quantity db0 db2 1 = 40%Z.
Proof. repeat split. Qed.

(** Scenario 5: the closed set with pnl +100 and -50 has profit factor 2 and
    a win rate of 50%. *)
Example scenario_statistics :
  let trade p :=
    {| StatisticsTab.pnl := p; StatisticsTab.entry_date := 1000;
       StatisticsTab.exit_date := 2000; StatisticsTab.entry_price := 150;
       StatisticsTab.exit_price := 150; StatisticsTab.stop_loss := Some 145;
       StatisticsTab.take_profit := Some 160 |} in
  exists s,
    StatisticsTab.calculate_statistics [trade 100; trade (-50)]
    = StatisticsTab.Shown s
    /\ StatisticsTab.profit_factor s = StatisticsTab.Finite (100 # 50)
    /\ StatisticsTab.win_rate s == 50
    /\ StatisticsTab.avg_win s == 100
    /\ StatisticsTab.avg_loss s == 50.
Proof. intro trade. eexists. repeat split. Qed.

(** * Further properties of the code *)

(** ** Floats that are not numbers *)

(** X2.  [validate_trade] accepts a trade exactly when its three tests, made
    on floats, are all false: the risk per share is not zero, the quotient
    reward / risk is not below 2, and the risk per share is not above
    [account_balance * max_risk_per_trade]; the message is then "Trade
    validation successful".  Every comparison with NaN is false, so a trade
    whose entry price or stop loss is NaN is accepted, whatever the take
    profit and the account. *)
Theorem validate_trade_accepts_iff (self : Binary64.RiskManagement.t)
  (entry_price stop_loss take_profit : F64.t) :
  let risk := F64.abs (F64.sub entry_price stop_loss) in
  let reward := F64.abs (F64.sub take_profit entry_price) in
  let ratio := F64.div reward risk in
  let max_risk :=
    F64.mul (Binary64.RiskManagement.account_balance self)
            (Binary64.RiskManagement.max_risk_per_trade self) in
  let outcome :=
    Binary64.RiskManagement.validate_trade self entry_price stop_loss take_profit in
  (fst outcome = true
   <-> (F64.eqb risk F64.zero = false
        /\ F64.ltb ratio (F64.of_Z 2) = false
        /\ F64.gtb risk max_risk = false))
  /\ (fst outcome = true ->
      snd outcome = Binary64.RiskManagement.ValidationSuccessful)
  /\ (F64.is_nan entry_price = true \/ F64.is_nan stop_loss = true ->
      outcome = (true, Binary64.RiskManagement.ValidationSuccessful)).
Proof.
  intros risk reward ratio max_risk outcome.
  assert (C := validate_trade_cases self entry_price stop_loss take_profit).
  cbv zeta in C. fold risk reward ratio max_risk outcome in C.
  split; [split | split].
  - intro H. rewrite C in H.
    destruct (F64.eqb risk F64.zero); [discriminate |].
    destruct (F64.ltb ratio (F64.of_Z 2)); [discriminate |].
    destruct (F64.gtb risk max_risk); [discriminate |].
    repeat split.
  - intros (H1 & H2 & H3). rewrite C, H1, H2, H3. reflexivity.
  - intro H. rewrite C in H |- *.
    destruct (F64.eqb risk F64.zero); [discriminate |].
    destruct (F64.ltb ratio (F64.of_Z 2)); [discriminate |].
    destruct (F64.gtb risk max_risk); [discriminate |].
    reflexivity.
  - intro H.
    assert (R : risk = F64.nan).
    { unfold risk. destruct H as [H | H].
      - destruct entry_price; try discriminate. now rewrite f64_sub_nan_l.
      - destruct stop_loss; try discriminate. now rewrite f64_sub_nan_r. }
    rewrite C. unfold ratio. rewrite R.
    rewrite f64_div_nan. unfold F64.gtb. rewrite f64_ltb_nan_r. reflexivity.
Qed.

Lemma validate_trade_accepts_iff_witness :
  Binary64.RiskManagement.validate_trade
    (Binary64.RiskManagement.init (F64.of_Z 10000))
    F64.nan (F64.of_Z 145) (F64.of_Z 160)
  = (true, Binary64.RiskManagement.ValidationSuccessful).
Proof.
  apply (validate_trade_accepts_iff
           (Binary64.RiskManagement.init (F64.of_Z 10000))
           F64.nan (F64.of_Z 145) (F64.of_Z 160)).
  left. reflexivity.
Defined.

(** X29.  With an entry price or a stop loss that is NaN, the risk per share
    is NaN, which is not [== 0]; the quotient is NaN, [int] raises
    ValueError, and [calculate_position_size] returns 0. *)
Theorem calculate_position_size_not_a_number (self : Binary64.RiskManagement.t)
  (entry_price stop_loss : F64.t) :
  F64.is_nan entry_price = true \/ F64.is_nan stop_loss = true ->
  Binary64.RiskManagement.calculate_position_size_body self entry_price stop_loss
  = Py.Raise (Py.ValueError "cannot convert float NaN to integer")
  /\ Binary64.RiskManagement.calculate_position_size self entry_price stop_loss
     = 0%Z.
Proof.
  intro H.
  assert (R : F64.abs (F64.sub entry_price stop_loss) = F64.nan).
  { destruct H as [H | H].
    - destruct entry_price; try discriminate. now rewrite f64_sub_nan_l.
    - destruct stop_loss; try discriminate. now rewrite f64_sub_nan_r. }
  assert (B : Binary64.RiskManagement.calculate_position_size_body self
                entry_price stop_loss
              = Py.Raise (Py.ValueError "cannot convert float NaN to integer")).
  { rewrite position_size_body_quotient by (rewrite R; reflexivity).
    rewrite R, f64_div_nan. reflexivity. }
  split; [exact B |].
  unfold Binary64.RiskManagement.calculate_position_size. rewrite B. reflexivity.
Qed.

Lemma calculate_position_size_not_a_number_witness :
  Binary64.RiskManagement.calculate_position_size
    (Binary64.RiskManagement.init (F64.of_Z 10000)) (F64.of_Z 150) F64.nan
  = 0%Z.
Proof.
  apply (calculate_position_size_not_a_number
           (Binary64.RiskManagement.init (F64.of_Z 10000)) (F64.of_Z 150) F64.nan).
  right. reflexivity.
Defined.

(** X30.  [calculate_risk_metrics] returns None exactly when the position
    size is too large to be converted to a float or the account balance is a
    zero; with a risk per share that is zero or NaN the ratio it reports is
    0. *)
Theorem calculate_risk_metrics_returns (self : Binary64.RiskManagement.t)
  (position_size : Z) (entry_price stop_loss take_profit : F64.t) :
  let risk := F64.abs (F64.sub entry_price stop_loss) in
  let metrics :=
    Binary64.RiskManagement.calculate_risk_metrics self position_size
      entry_price stop_loss take_profit in
  (metrics = None
   <-> (F64.of_int position_size = Py.Raise Py.OverflowError
        \/ F64.eqb (Binary64.RiskManagement.account_balance self) F64.zero = true))
  /\ (forall m, metrics = Some m ->
        Binary64.RiskManagement.risk_per_share m = risk
        /\ (F64.gtb risk F64.zero = false ->
            Binary64.RiskManagement.risk_reward_ratio m = F64.zero)).
Proof.
  intros risk metrics. split.
  - apply calculate_risk_metrics_none.
  - unfold metrics, Binary64.RiskManagement.calculate_risk_metrics,
      Binary64.RiskManagement.calculate_risk_metrics_body.
    fold risk. intros m.
    destruct (F64.of_int position_size) as [size | e]; cbn [Py.bind Py.catch];
      [| discriminate].
    destruct (F64.gtb risk F64.zero) eqn:G.
    + destruct (F64.truediv _ risk) as [ratio | e]; cbn [Py.bind Py.catch];
        [| discriminate].
      destruct (F64.truediv _ _) as [share | e]; cbn [Py.bind Py.catch];
        [| discriminate].
      intro H. injection H as <-. split; [reflexivity | discriminate].
    + cbn [Py.bind].
      destruct (F64.truediv _ _) as [share | e]; cbn [Py.bind Py.catch];
        [| discriminate].
      intro H. injection H as <-. split; reflexivity.
Qed.

(** ** The table under its operations *)

Section TableOperations.

Import Portfolio PortfolioTracker.

Lemma update_by_id_missing (db : DB) (position_id : Z) (set : Row -> Row) :
  select_by_id db position_id = [] ->
  update_by_id db position_id set = db.
Proof.
  intro H. destruct db as [rs n]. unfold update_by_id, select_by_id in *.
  simpl in *. f_equal.
  induction rs as [| a rs IH]; simpl in *; [reflexivity |].
  destruct (id a =? position_id)%Z; [discriminate |].
  now rewrite (IH H).
Qed.

Lemma update_by_id_twice (db : DB) (position_id : Z) (f g : Row -> Row) :
  (forall r, id (f r) = id r) ->
  update_by_id (update_by_id db position_id f) position_id g
  = update_by_id db position_id (fun r => g (f r)).
Proof.
  intro Hf. unfold update_by_id. simpl. f_equal.
  rewrite map_map. apply map_ext. intro a.
  destruct (id a =? position_id)%Z eqn:E.
  - now rewrite Hf, E.
  - now rewrite E.
Qed.

Lemma execute_partial_close_missing (db : DB) (position_id close_quantity : Z)
  (exit : Q) (now : Z) :
  select_by_id db position_id = [] ->
  execute_partial_close db position_id close_quantity exit now = db.
Proof.
  intro H. unfold execute_partial_close, execute_partial_close_body.
  rewrite H. reflexivity.
Qed.

Lemma save_modifications_cases (db : DB) (position_id : Z)
  (stop_text take_text : option Q) :
  (save_modifications db position_id stop_text take_text = db
   /\ (stop_text = None \/ take_text = None))
  \/ exists stop take,
       stop_text = Some stop /\ take_text = Some take
       /\ save_modifications db position_id stop_text take_text
          = update_by_id db position_id (set_stops stop take).
Proof.
  unfold save_modifications.
  destruct stop_text as [stop |]; [| left; split; [reflexivity | now left]].
  destruct take_text as [take |]; [| left; split; [reflexivity | now right]].
  right. exists stop, take. repeat split.
Qed.

End TableOperations.

(** X5.  An id that is not in the table: closing it, partially closing it
    and modifying it all leave the table exactly as it was (the IndexError of
    the lookup is caught; the UPDATE matches no row). *)
Theorem operations_on_unknown_id (db : Portfolio.DB) (position_id : Z) :
  Portfolio.select_by_id db position_id = [] ->
  (forall exit now,
     PortfolioTracker.execute_close_position db position_id exit now = db)
  /\ (forall close_quantity exit now,
        PortfolioTracker.execute_partial_close db position_id close_quantity
          exit now = db)
  /\ (forall stop_text take_text,
        PortfolioTracker.save_modifications db position_id stop_text take_text
        = db).
Proof.
  intro H. split; [| split].
  - intros. apply execute_close_position_missing. exact H.
  - intros. apply execute_partial_close_missing. exact H.
  - intros stop_text take_text.
    destruct (save_modifications_cases db position_id stop_text take_text)
      as [[E _] | (stop & take & _ & _ & E)]; [exact E |].
    rewrite E. apply update_by_id_missing. exact H.
Qed.

Lemma operations_on_unknown_id_witness :
  let db := {| Portfolio.rows :=
                 [PositionCalculator.open_row "AAPL" 150 145 160 40 1000
                    Portfolio.Long 1];
               Portfolio.sequence := 1 |} in
  PortfolioTracker.execute_close_position db 7 155 2000 = db
  /\ PortfolioTracker.execute_partial_close db 7 10 155 2000 = db
  /\ PortfolioTracker.save_modifications db 7 (Some 140) (Some 170) = db.
Proof.
  intro db.
  destruct (operations_on_unknown_id db 7 eq_refl) as (H1 & H2 & H3).
  split; [apply H1 | split; [apply H2 | apply H3]].
Defined.

(** X6.  [execute_close_position] does not look at the status: closing a
    position that is already closed overwrites its exit price, exit date and
    pnl, and the table is then the one a single close at the second price
    and time gives. *)
Theorem close_position_again_overwrites (db : Portfolio.DB) (position_id : Z)
  (exit1 exit2 : Q) (now1 now2 : Z) :
  PortfolioTracker.execute_close_position
    (PortfolioTracker.execute_close_position db position_id exit1 now1)
    position_id exit2 now2
  = PortfolioTracker.execute_close_position db position_id exit2 now2.
Proof.
  destruct (Portfolio.select_by_id db position_id) as [| r rest] eqn:H.
  - rewrite (execute_close_position_missing db position_id exit1 now1 H).
    reflexivity.
  - rewrite (execute_close_position_found db position_id exit1 now1 r rest H).
    rewrite (execute_close_position_found db position_id exit2 now2 r rest H).
    set (p1 := (exit1 - Portfolio.entry_price r) * inject_Z (Portfolio.quantity r)).
    set (p2 := (exit2 - Portfolio.entry_price r) * inject_Z (Portfolio.quantity r)).
    assert (H' : Portfolio.select_by_id
                   (Portfolio.update_by_id db position_id
                      (Portfolio.set_closed exit1 now1 p1)) position_id
                 = Portfolio.set_closed exit1 now1 p1 r
                   :: map (Portfolio.set_closed exit1 now1 p1) rest).
    { rewrite select_update by (intro; reflexivity). now rewrite H. }
    rewrite (execute_close_position_found _ position_id exit2 now2 _ _ H').
    rewrite update_by_id_twice by (intro; reflexivity).
    reflexivity.
Qed.



(** X8.  Nor does it reject a quantity that is not positive: on a position
    of positive quantity, a [close_quantity <= 0] appends a Closed row of that
    quantity and sets the position's quantity to
    [quantity - close_quantity], which is no smaller than before.  This as
    long as both quantities fit the 64 bits of an INTEGER column: beyond
    them the statement that binds the quantity raises OverflowError. *)
Theorem partial_close_of_nonpositive_quantity (db : Portfolio.DB)
  (position_id close_quantity : Z) (exit : Q) (now : Z) (r : Portfolio.Row) :
  Portfolio.select_by_id db position_id = [r] ->
  (0 < Portfolio.quantity r)%Z -> (close_quantity <= 0)%Z ->
  (- 2 ^ 63 <= close_quantity)%Z ->
  (Portfolio.quantity r - close_quantity < 2 ^ 63)%Z ->
  let db' := PortfolioTracker.execute_partial_close db position_id
               close_quantity exit now in
  exists lot,
    Portfolio.rows db'
    = Portfolio.rows
        (Portfolio.update_by_id db position_id
           (Portfolio.set_reduced (Portfolio.quantity r - close_quantity)))
      ++ [lot]
    /\ Portfolio.status lot = Portfolio.Closed
    /\ Portfolio.quantity lot = close_quantity
    /\ Portfolio.select_by_id
         (Portfolio.update_by_id db position_id
            (Portfolio.set_reduced (Portfolio.quantity r - close_quantity)))
         position_id
       = [Portfolio.set_reduced (Portfolio.quantity r - close_quantity) r]
    /\ (Portfolio.quantity r <= Portfolio.quantity r - close_quantity)%Z.
Proof.
  intros H Hq Hc Hlow Hhigh db'.
  assert (Hpos : (0 < Portfolio.quantity r - close_quantity)%Z) by lia.
  unfold db'.
  rewrite (execute_partial_close_reduces db position_id close_quantity exit now
             r [] H Hpos).
  eexists. split; [reflexivity |]. simpl.
  split; [reflexivity |]. split; [reflexivity |]. split; [| lia].
  rewrite select_update by (intro; reflexivity). now rewrite H.
Qed.

Lemma partial_close_of_nonpositive_quantity_witness :
  let r := PositionCalculator.open_row "AAPL" 150 145 160 40 1000 Portfolio.Long 1 in
  let db := {| Portfolio.rows := [r]; Portfolio.sequence := 1 |} in
  exists lot,
    Portfolio.rows (PortfolioTracker.execute_partial_close db 1 (-5) 155 2000)
    = Portfolio.rows
        (Portfolio.update_by_id db 1 (Portfolio.set_reduced (40 - -5))) ++ [lot]
    /\ Portfolio.status lot = Portfolio.Closed
    /\ Portfolio.quantity lot = (-5)%Z
    /\ Portfolio.select_by_id
         (Portfolio.update_by_id db 1 (Portfolio.set_reduced (40 - -5))) 1
       = [Portfolio.set_reduced (40 - -5) r]
    /\ (40 <= 40 - -5)%Z.
Proof.
  intros r db.
  refine (partial_close_of_nonpositive_quantity db 1 (-5) 155 2000 r eq_refl
            _ _ _ _).
  - simpl. lia.
  - lia.
  - lia.
  - simpl. lia.
Defined.

(** ** The partial-close dialog and [close_position] *)

Lemma dialog_run_valid (max_quantity : Z) (events : list PartialCloseDialog.event)
  (self : PartialCloseDialog.t) :
  (PartialCloseDialog.result self = true ->
   (0 < PartialCloseDialog.quantity self <= max_quantity)%Z) ->
  PartialCloseDialog.result (PartialCloseDialog.run max_quantity events self) = true ->
  (0 < PartialCloseDialog.quantity (PartialCloseDialog.run max_quantity events self)
   <= max_quantity)%Z.
Proof.
  revert self. induction events as [| e events IH]; intros self Hself; simpl.
  - exact Hself.
  - assert (Hstep :
      forall self',
        self' = match e with
                | PartialCloseDialog.Submit text =>
                    PartialCloseDialog.validate_and_close max_quantity text self
                | PartialCloseDialog.Cancel => PartialCloseDialog.cancel self
                end ->
        PartialCloseDialog.result self' = true ->
        (0 < PartialCloseDialog.quantity self' <= max_quantity)%Z).
    { intros self' ->. destruct e as [[q |] |]; simpl.
      - unfold PartialCloseDialog.validate_and_close.
        destruct ((0 <? q)%Z && (q <=? max_quantity)%Z) eqn:E; [| exact Hself].
        simpl. intros _. apply andb_true_iff in E. destruct E as [E1 E2].
        apply Z.ltb_lt in E1. apply Z.leb_le in E2. lia.
      - exact Hself.
      - discriminate. }
    destruct (PartialCloseDialog.destroyed _) eqn:D.
    + apply (Hstep _ eq_refl).
    + apply IH. apply (Hstep _ eq_refl).
Qed.

(** X9.  The partial-close dialog reports success only with a quantity
    between 1 and the maximum it was opened with, whatever the user types and
    however often; after a cancel, or when the window is left without a valid
    entry, it reports no success. *)
Theorem dialog_accepts_only_valid_quantity (max_quantity : Z)
  (events : list PartialCloseDialog.event) :
  let dialog := PartialCloseDialog.run max_quantity events PartialCloseDialog.init in
  (PartialCloseDialog.result dialog = true ->
   (0 < PartialCloseDialog.quantity dialog <= max_quantity)%Z)
  /\ (PartialCloseDialog.result dialog = true ->
      exists before after,
        events = before ++ PartialCloseDialog.Submit
                             (Some (PartialCloseDialog.quantity dialog)) :: after).
Proof.
  intro dialog. split.
  - apply dialog_run_valid. discriminate.
  - unfold dialog. clear dialog.
    assert (G : forall self,
      PartialCloseDialog.result self = false ->
      PartialCloseDialog.result (PartialCloseDialog.run max_quantity events self) = true ->
      exists before after,
        events = before ++ PartialCloseDialog.Submit
                   (Some (PartialCloseDialog.quantity
                            (PartialCloseDialog.run max_quantity events self)))
                 :: after).
    { induction events as [| e events IH]; intros self Hself; simpl.
      - congruence.
      - destruct e as [[q |] |]; simpl.
        + unfold PartialCloseDialog.validate_and_close.
          destruct ((0 <? q)%Z && (q <=? max_quantity)%Z) eqn:E; simpl.
          * intros _. exists [], events. reflexivity.
          * destruct (PartialCloseDialog.destroyed self) eqn:D.
            -- congruence.
            -- intro R. destruct (IH self Hself R) as (b & a & Hev).
               exists (PartialCloseDialog.Submit (Some q) :: b), a.
               simpl. now rewrite <- Hev.
        + destruct (PartialCloseDialog.destroyed self) eqn:D.
          * congruence.
          * intro R. destruct (IH self Hself R) as (b & a & Hev).
            exists (PartialCloseDialog.Submit None :: b), a.
            simpl. now rewrite <- Hev.
        + discriminate. }
    apply G. reflexivity.
Qed.

Section PositiveQuantities.

Import Portfolio PortfolioTracker.

Lemma positive_after_update (db : DB) (position_id : Z) (set : Row -> Row) :
  (forall r, (0 < quantity r)%Z -> (0 < quantity (set r))%Z) ->
  positive_quantities db = true ->
  positive_quantities (update_by_id db position_id set) = true.
Proof.
  intros Hset H. unfold positive_quantities, update_by_id in *. simpl.
  rewrite forallb_forall in *. intros x Hx. apply in_map_iff in Hx.
  destruct Hx as (a & <- & Ha). specialize (H a Ha).
  apply Z.ltb_lt in H. apply Z.ltb_lt.
  destruct (id a =? position_id)%Z; [apply Hset |]; exact H.
Qed.

Lemma positive_after_close (db : DB) (position_id : Z) (exit : Q) (now : Z) :
  positive_quantities db = true ->
  positive_quantities (execute_close_position db position_id exit now) = true.
Proof.
  intro H. destruct (select_by_id db position_id) as [| r rest] eqn:S.
  - now rewrite (execute_close_position_missing db position_id exit now S).
  - rewrite (execute_close_position_found db position_id exit now r rest S).
    apply positive_after_update; [| exact H]. intros x Hx. exact Hx.
Qed.

Lemma positive_after_partial_close (db : DB) (position_id close_quantity : Z)
  (exit : Q) (now : Z) :
  (0 < close_quantity)%Z ->
  positive_quantities db = true ->
  positive_quantities
    (execute_partial_close db position_id close_quantity exit now) = true.
Proof.
  intros Hc H. destruct (select_by_id db position_id) as [| r rest] eqn:S.
  - now rewrite (execute_partial_close_missing db position_id close_quantity exit now S).
  - destruct (Z_lt_le_dec 0 (quantity r - close_quantity)) as [Hpos | Hnon].
    + rewrite (execute_partial_close_reduces db position_id close_quantity
                 exit now r rest S Hpos).
      unfold positive_quantities, insert. simpl.
      rewrite forallb_app. apply andb_true_iff. split.
      * apply (positive_after_update db position_id
                 (set_reduced (quantity r - close_quantity)));
          [| exact H]. intros x _. exact Hpos.
      * simpl. rewrite andb_true_r. apply Z.ltb_lt. exact Hc.
    + rewrite (execute_partial_close_closes db position_id close_quantity
                 exit now r rest S Hnon).
      apply positive_after_close. exact H.
Qed.

End PositiveQuantities.

(** X10.  Through [close_position] (the button of the portfolio tab) no row
    with a quantity of zero or less can appear: if every row of the table has
    a positive quantity before, every row has one after, whatever is
    selected, whatever the price, the answers and the entries in the
    partial-close dialog. *)
Theorem close_position_keeps_quantities_positive (db : Portfolio.DB)
  (selected : option (Z * string * Z)) (current_price : option Q)
  (close_type : option bool) (confirm : bool)
  (events : list PartialCloseDialog.event) (now : Z) :
  PortfolioTracker.positive_quantities db = true ->
  PortfolioTracker.positive_quantities
    (PortfolioTracker.close_position db selected current_price close_type
       confirm events now) = true.
Proof.
  intro H. unfold PortfolioTracker.close_position.
  destruct selected as [[[position_id sym] current_quantity] |]; [| exact H].
  destruct current_price as [price |]; [| exact H].
  destruct (Py.truthy price); [| exact H].
  destruct close_type as [[|] |]; [| | exact H].
  - destruct confirm; [| exact H]. apply positive_after_close. exact H.
  - destruct (PartialCloseDialog.result _ && _) eqn:E; [| exact H].
    apply andb_true_iff in E. destruct E as [_ E]. apply Z.gtb_lt in E.
    apply positive_after_partial_close; [lia | exact H].
Qed.

Lemma close_position_keeps_quantities_positive_witness :
  let r := PositionCalculator.open_row "AAPL" 150 145 160 40 1000 Portfolio.Long 1 in
  let db := {| Portfolio.rows := [r]; Portfolio.sequence := 1 |} in
  PortfolioTracker.positive_quantities
    (PortfolioTracker.close_position db (Some (1%Z, "AAPL"%string, 40%Z)) (Some 155)
       (Some false) false
       [PartialCloseDialog.Submit (Some 0%Z); PartialCloseDialog.Submit (Some 15%Z)]
       2000) = true.
Proof.
  intros r db.
  apply (close_position_keeps_quantities_positive db). reflexivity.
Defined.

(** ** Invariants of the table under every sequence of operations *)

Section LedgerShape.

Import Portfolio PortfolioTracker.

Lemma shape_unchanged (db : DB) : Ledger.step_shape db db.
Proof.
  exists (fun r => r), []. rewrite map_id, app_nil_r.
  split; [reflexivity |]. split; [reflexivity |]. split; [tauto |].
  left. split; reflexivity.
Qed.

Lemma shape_update (db : DB) (position_id : Z) (set : Row -> Row) :
  (forall r, entry_key (set r) = entry_key r) ->
  (forall r, settled r = true -> settled (set r) = true) ->
  Ledger.step_shape db (update_by_id db position_id set).
Proof.
  intros Hkey Hset.
  exists (fun r => if (id r =? position_id)%Z then set r else r), [].
  rewrite app_nil_r. split; [reflexivity |]. split; [| split].
  - intro r. destruct (id r =? position_id)%Z; [apply Hkey | reflexivity].
  - intros r Hr. destruct (id r =? position_id)%Z; [apply Hset |]; exact Hr.
  - left. split; reflexivity.
Qed.

Lemma shape_insert (db db1 : DB) (mk : Z -> Row) :
  Ledger.step_shape db db1 ->
  sequence db1 = sequence db ->
  List.length (rows db1) = List.length (rows db) ->
  (forall n, id (mk n) = n) ->
  (forall n, settled (mk n) = true) ->
  Ledger.step_shape db (insert db1 mk).
Proof.
  intros (f & extra & Hrows & Hkey & Hset & _) Hseq Hlen Hid Hmk.
  assert (Hextra : extra = []).
  { apply (f_equal (@List.length Row)) in Hrows.
    rewrite length_app, length_map in Hrows.
    destruct extra; [reflexivity | simpl in Hrows; lia]. }
  subst extra. rewrite app_nil_r in Hrows.
  exists f, [mk (sequence db + 1)%Z]. unfold insert. simpl.
  rewrite Hrows, Hseq. repeat split; try assumption.
  right. eexists. repeat split; [apply Hid | apply Hmk].
Qed.

Lemma shape_close (db : DB) (position_id : Z) (exit : Q) (now : Z) :
  Ledger.step_shape db (execute_close_position db position_id exit now).
Proof.
  destruct (select_by_id db position_id) as [| r rest] eqn:S.
  - rewrite (execute_close_position_missing db position_id exit now S).
    apply shape_unchanged.
  - rewrite (execute_close_position_found db position_id exit now r rest S).
    apply shape_update; intros; reflexivity.
Qed.

Lemma shape_partial_close (db : DB) (position_id close_quantity : Z)
  (exit : Q) (now : Z) :
  Ledger.step_shape db
    (execute_partial_close db position_id close_quantity exit now).
Proof.
  destruct (select_by_id db position_id) as [| r rest] eqn:S.
  - rewrite (execute_partial_close_missing db position_id close_quantity exit now S).
    apply shape_unchanged.
  - destruct (Z_lt_le_dec 0 (quantity r - close_quantity)) as [Hpos | Hnon].
    + rewrite (execute_partial_close_reduces db position_id close_quantity
                 exit now r rest S Hpos).
      apply shape_insert; try reflexivity.
      * apply shape_update; [intros; reflexivity |].
        intros x Hx. exact Hx.
      * unfold update_by_id. simpl. apply length_map.
    + rewrite (execute_partial_close_closes db position_id close_quantity
                 exit now r rest S Hnon).
      apply shape_close.
Qed.

Lemma shape_modify (db : DB) (position_id : Z) (stop_text take_text : option Q) :
  Ledger.step_shape db (save_modifications db position_id stop_text take_text).
Proof.
  destruct (save_modifications_cases db position_id stop_text take_text)
    as [[E _] | (stop & take & _ & _ & E)]; rewrite E.
  - apply shape_unchanged.
  - apply shape_update; [intros; reflexivity |]. intros x Hx. exact Hx.
Qed.

Lemma shape_save_trade (form : PositionCalculator.t) (position_size now : Z)
  (db : DB) :
  Ledger.step_shape db (PositionCalculator.save_trade form position_size now db).
Proof.
  unfold PositionCalculator.save_trade, PositionCalculator.save_trade_body.
  destruct (PositionCalculator.entry_price_var form) as [entry |];
    [| apply shape_unchanged].
  destruct (PositionCalculator.stop_loss_var form) as [stop |];
    [| apply shape_unchanged].
  destruct (PositionCalculator.take_profit_var form) as [take |];
    [| apply shape_unchanged].
  cbn [PositionCalculator.float Py.bind].
  destruct (PyStr.is_empty _ || Py.le entry 0 || Py.le stop 0 || Py.le take 0);
    [apply shape_unchanged |].
  cbn [Py.catch].
  apply shape_insert; try reflexivity. apply shape_unchanged.
Qed.

Lemma shape_calculate_position (form : PositionCalculator.t) (confirm : bool)
  (now : Z) (db : DB) :
  Ledger.step_shape db (PositionCalculator.calculate_position form confirm now db).
Proof.
  unfold PositionCalculator.calculate_position,
    PositionCalculator.calculate_position_body.
  destruct (PositionCalculator.entry_price_var form) as [entry |];
    [| apply shape_unchanged].
  destruct (PositionCalculator.stop_loss_var form) as [stop |];
    [| apply shape_unchanged].
  destruct (PositionCalculator.take_profit_var form) as [take |];
    [| apply shape_unchanged].
  cbn [PositionCalculator.float Py.bind].
  destruct (Py.le entry 0 || Py.le stop 0 || Py.le take 0);
    [apply shape_unchanged |].
  destruct (RiskManagement.calculate_risk_metrics _ _ _ _ _);
    [| apply shape_unchanged].
  destruct confirm; [| apply shape_unchanged].
  cbn [Py.catch]. apply shape_save_trade.
Qed.

Lemma shape_apply (db : DB) (op : Ledger.Operation) :
  Ledger.step_shape db (Ledger.apply db op).
Proof.
  destruct op; simpl.
  - apply shape_calculate_position.
  - apply shape_save_trade.
  - apply shape_close.
  - apply shape_partial_close.
  - apply shape_modify.
Qed.

Lemma entry_key_id (f : Row -> Row) :
  (forall r, entry_key (f r) = entry_key r) -> forall r, id (f r) = id r.
Proof.
  intros H r. specialize (H r). unfold entry_key in H. congruence.
Qed.

Lemma shape_ids (db db' : DB) :
  Ledger.step_shape db db' ->
  well_formed db = true -> unique_ids db ->
  well_formed db' = true /\ unique_ids db'.
Proof.
  intros (f & extra & Hrows & Hkey & _ & Hextra) Hwf Hu.
  pose proof (entry_key_id f Hkey) as Hid.
  assert (Hids : map id (map f (rows db)) = map id (rows db)).
  { rewrite map_map. apply map_ext. exact Hid. }
  unfold well_formed, unique_ids in *. rewrite forallb_forall in Hwf.
  destruct Hextra as [[-> Hseq] | (row & -> & Hrow & Hseq & _)].
  - rewrite app_nil_r in Hrows. rewrite Hrows, Hseq. split.
    + apply forallb_forall. intros x Hx. apply in_map_iff in Hx.
      destruct Hx as (a & <- & Ha). rewrite Hid. exact (Hwf a Ha).
    + rewrite Hids. exact Hu.
  - rewrite Hrows, Hseq. split.
    + apply forallb_forall. intros x Hx. apply in_app_or in Hx.
      destruct Hx as [Hx | [<- | []]].
      * apply in_map_iff in Hx. destruct Hx as (a & <- & Ha). rewrite Hid.
        specialize (Hwf a Ha). apply Z.leb_le in Hwf. apply Z.leb_le. lia.
      * apply Z.leb_le. lia.
    + rewrite map_app, Hids. simpl.
      apply NoDup_app; [exact Hu | constructor; [tauto | constructor] |].
      intros i Hi [<- | []]. apply in_map_iff in Hi.
      destruct Hi as (a & Ha & Hin). specialize (Hwf a Hin).
      apply Z.leb_le in Hwf. lia.
Qed.


Lemma shape_keys (db db' : DB) :
  Ledger.step_shape db db' ->
  (exists added,
     map entry_key (rows db') = map entry_key (rows db) ++ added)
  /\ (sequence db <= sequence db')%Z.
Proof.
  intros (f & extra & Hrows & Hkey & _ & Hextra). split.
  - exists (map entry_key extra). rewrite Hrows, map_app. f_equal.
    rewrite map_map. apply map_ext. exact Hkey.
  - destruct Hextra as [[_ ->] | (row & _ & _ & -> & _)]; lia.
Qed.

End LedgerShape.

(** X11.  Ids are never reused.  In a table where the ids are distinct and
    were all handed out by the sequence, they stay so after every sequence of
    operations (opening through [calculate_position] or [save_trade], full
    and partial closes, modifications). *)
Theorem ledger_ids_stay_unique (db : Portfolio.DB) (ops : list Ledger.Operation) :
  PortfolioTracker.well_formed db = true ->
  PortfolioTracker.unique_ids db ->
  PortfolioTracker.well_formed (Ledger.run db ops) = true
  /\ PortfolioTracker.unique_ids (Ledger.run db ops).
Proof.
  revert db. induction ops as [| op ops IH]; intros db Hwf Hu.
  - split; assumption.
  - destruct (shape_ids db (Ledger.apply db op) (shape_apply db op) Hwf Hu)
      as [Hwf' Hu'].
    exact (IH (Ledger.apply db op) Hwf' Hu').
Qed.


(** X13.  The table is append-only and the entry of a row is immutable:
    after every sequence of operations the rows that were there are still
    there, in the same places, with the same id, symbol, entry price, entry
    date and trade type; new rows come after them, and the sequence counter
    never goes back. *)
Theorem ledger_is_append_only (db : Portfolio.DB) (ops : list Ledger.Operation) :
  (exists added,
     map PortfolioTracker.entry_key (Portfolio.rows (Ledger.run db ops))
     = map PortfolioTracker.entry_key (Portfolio.rows db) ++ added)
  /\ (Portfolio.sequence db <= Portfolio.sequence (Ledger.run db ops))%Z.
Proof.
  revert db. induction ops as [| op ops IH]; intro db.
  - split; [exists []; now rewrite app_nil_r | simpl; lia].
  - destruct (shape_keys db _ (shape_apply db op)) as [[a1 H1] L1].
    destruct (IH (Ledger.apply db op)) as [[a2 H2] L2].
    split.
    + exists (a1 ++ a2). simpl. rewrite H2, H1. now rewrite app_assoc.
    + simpl. lia.
Qed.

Lemma ledger_ids_stay_unique_witness :
  let form :=
    {| PositionCalculator.risk_manager := RiskManagement.init 10000;
       PositionCalculator.symbol_var := "aapl";
       PositionCalculator.entry_price_var := Some 150;
       PositionCalculator.stop_loss_var := Some 145;
       PositionCalculator.take_profit_var := Some 160;
       PositionCalculator.atr_multiplier_var := Some 2;
       PositionCalculator.trade_type := Portfolio.Long;
       PositionCalculator.stop_loss_type := PositionCalculator.Fixed |} in
  let ops := [Ledger.CalculatePosition form true 1000;
              Ledger.PartialClose 1 15 155 2000;
              Ledger.Modify 1 (Some 148) (Some 165);
              Ledger.ClosePosition 1 148 3000] in
  PortfolioTracker.well_formed (Ledger.run Ledger.empty ops) = true
  /\ PortfolioTracker.unique_ids (Ledger.run Ledger.empty ops).
Proof.
  intros form ops.
  apply (ledger_ids_stay_unique Ledger.empty ops).
  - reflexivity.
  - constructor.
Defined.


(** ** Looking up what was inserted *)

Section InsertLookup.

Import Portfolio PortfolioTracker.

Lemma select_insert_new (db : DB) (mk : Z -> Row) :
  (forall n, id (mk n) = n) ->
  well_formed db = true ->
  select_by_id (insert db mk) (sequence db + 1) = [mk (sequence db + 1)%Z].
Proof.
  intros Hid Hwf. unfold select_by_id, insert. simpl.
  rewrite filter_app. simpl. rewrite Hid, Z.eqb_refl.
  rewrite filter_other_ids; [reflexivity |].
  unfold well_formed in Hwf. rewrite forallb_forall in Hwf.
  apply Forall_forall. intros x Hx. specialize (Hwf x Hx).
  apply Z.leb_le in Hwf. lia.
Qed.

Lemma well_formed_insert (db : DB) (mk : Z -> Row) :
  (forall n, id (mk n) = n) ->
  well_formed db = true -> well_formed (insert db mk) = true.
Proof.
  intros Hid Hwf. unfold well_formed, insert in *. simpl.
  rewrite forallb_forall in *. intros x Hx. apply in_app_or in Hx.
  destruct Hx as [Hx | [<- | []]].
  - specialize (Hwf x Hx). apply Z.leb_le in Hwf. apply Z.leb_le. lia.
  - rewrite Hid. apply Z.leb_le. lia.
Qed.

(** What conservation says, read off the shape of the table. *)
Lemma split_state_conserves (db0 : DB) (r0 : Row) (position_id : Z) (db : DB) :
  split_state db0 r0 position_id db ->
  (live_quantity db position_id + settled_quantity db0 db position_id
   = quantity r0)%Z.
Proof.
  intro S.
  destruct (split_state_select db0 r0 position_id db S) as (r' & Hfound & _).
  destruct S as (r & base & lots & Hrows & Hlen & Hbase & Hlots & _ & _ & Hsum & _).
  assert (Hother : Forall (fun x => id x <> position_id) lots)
    by (eapply Forall_impl; [| exact Hlots]; simpl; tauto).
  assert (Hclosed : Forall (fun x => status x = Closed) lots)
    by (eapply Forall_impl; [| exact Hlots]; simpl; tauto).
  assert (Hr : r' = r).
  { unfold select_by_id in Hfound. rewrite Hrows, filter_app, Hbase in Hfound.
    rewrite (filter_other_ids position_id lots Hother) in Hfound.
    simpl in Hfound. congruence. }
  subst r'.
  assert (Hins : inserted_since db0 db = lots).
  { unfold inserted_since. rewrite Hrows, <- Hlen.
    rewrite skipn_app, skipn_all, Nat.sub_diag. reflexivity. }
  unfold live_quantity, settled_quantity.
  rewrite Hfound, Hins, (filter_closed_lots lots Hclosed).
  pose proof (open_plus_closed r). lia.
Qed.

End InsertLookup.

(** X15.  A trade that [save_trade] accepts, with an ASCII symbol and a
    position size within the 64 bits of an INTEGER column, can be looked up
    under the next id of the sequence: it is the only row with that id, it
    is Open, with the position size as quantity and no original quantity
    yet.  From there on, after every sequence of partial closes of it by
    quantities from 1 up to 64 bits, the quantity still open and the
    quantities settled add up to the position size. *)
Theorem saved_trade_is_found_and_conserved (form : PositionCalculator.t)
  (entry stop take : Q) (position_size now : Z) (db : Portfolio.DB)
  (ops : list (Z * Q * Z)) :
  PortfolioTracker.well_formed db = true ->
  PositionCalculator.entry_price_var form = Some entry ->
  PositionCalculator.stop_loss_var form = Some stop ->
  PositionCalculator.take_profit_var form = Some take ->
  PyStr.is_ascii (PositionCalculator.symbol_var form) = true ->
  PyStr.is_empty (PyStr.upper (PyStr.strip (PositionCalculator.symbol_var form)))
  || Py.le entry 0 || Py.le stop 0 || Py.le take 0 = false ->
  (- 2 ^ 63 <= position_size < 2 ^ 63)%Z ->
  Forall (fun op => (0 < fst (fst op) < 2 ^ 63)%Z) ops ->
  let db1 := PositionCalculator.save_trade form position_size now db in
  let position_id := (Portfolio.sequence db + 1)%Z in
  let row :=
    PositionCalculator.open_row
      (PyStr.upper (PyStr.strip (PositionCalculator.symbol_var form)))
      entry stop take position_size now (PositionCalculator.trade_type form)
      position_id in
  Portfolio.select_by_id db1 position_id = [row]
  /\ (forall other, other <> position_id ->
        Portfolio.select_by_id db1 other = Portfolio.select_by_id db other)
  /\ (PortfolioTracker.live_quantity
        (PortfolioTracker.partial_closes db1 position_id ops) position_id
      + PortfolioTracker.settled_quantity db1
          (PortfolioTracker.partial_closes db1 position_id ops) position_id
      = position_size)%Z.
Proof.
  intros Hwf He Hs Ht Hascii Hvalid Hsize Hops db1 position_id row.
  assert (E : db1 = Portfolio.insert db
                      (PositionCalculator.open_row
                         (PyStr.upper (PyStr.strip (PositionCalculator.symbol_var form)))
                         entry stop take position_size now
                         (PositionCalculator.trade_type form))).
  { unfold db1. rewrite (save_trade_spec form entry stop take He Hs Ht).
    now rewrite Hvalid. }
  assert (Hsel : Portfolio.select_by_id db1 position_id = [row]).
  { rewrite E. apply select_insert_new; [intro; reflexivity | exact Hwf]. }
  split; [exact Hsel |]. split.
  - intros other Hother. rewrite E.
    unfold Portfolio.select_by_id, Portfolio.insert. simpl.
    rewrite filter_app. simpl.
    assert (N : (Portfolio.sequence db + 1 =? other)%Z = false).
    { apply Z.eqb_neq. unfold position_id in Hother. congruence. }
    rewrite N. apply app_nil_r.
  - assert (Hwf1 : PortfolioTracker.well_formed db1 = true).
    { rewrite E. apply well_formed_insert; [intro; reflexivity | exact Hwf]. }
    pose proof (split_state_initial db1 row position_id Hwf1 Hsel eq_refl) as S0.
    pose proof (split_state_partial_closes db1 row position_id ops db1 S0) as S.
    exact (split_state_conserves db1 row position_id _ S).
Qed.

Lemma saved_trade_is_found_and_conserved_witness :
  let form :=
    {| PositionCalculator.risk_manager := RiskManagement.init 10000;
       PositionCalculator.symbol_var := " aapl ";
       PositionCalculator.entry_price_var := Some 150;
       PositionCalculator.stop_loss_var := Some 145;
       PositionCalculator.take_profit_var := Some 160;
       PositionCalculator.atr_multiplier_var := Some 2;
       PositionCalculator.trade_type := Portfolio.Long;
       PositionCalculator.stop_loss_type := PositionCalculator.Fixed |} in
  let db1 := PositionCalculator.save_trade form 40 1000 Ledger.empty in
  let ops := [(15%Z, 155, 2000%Z); (10%Z, 158, 2500%Z); (15%Z, 148, 3000%Z)] in
  Portfolio.select_by_id db1 1
  = [PositionCalculator.open_row "AAPL" 150 145 160 40 1000 Portfolio.Long 1]
  /\ (PortfolioTracker.live_quantity (PortfolioTracker.partial_closes db1 1 ops) 1
      + PortfolioTracker.settled_quantity db1
          (PortfolioTracker.partial_closes db1 1 ops) 1 = 40)%Z.
Proof.
  intros form db1 ops.
  assert (Hsize : (- 2 ^ 63 <= 40 < 2 ^ 63)%Z) by lia.
  assert (Hops : Forall (fun op : Z * Q * Z => (0 < fst (fst op) < 2 ^ 63)%Z) ops)
    by (repeat constructor; simpl; lia).
  destruct (saved_trade_is_found_and_conserved form 150 145 160 40 1000
              Ledger.empty ops eq_refl eq_refl eq_refl eq_refl eq_refl eq_refl
              Hsize Hops)
    as (H1 & _ & H3).
  split; [exact H1 | exact H3].
Defined.


(** ** The Average True Range with enough history *)

Section FullWindow.

Import MarketDataManager.

Lemma fmax_num (x : Q) (b : pyfloat) :
  exists y, fmax (Num x) b = Num y /\ x <= y.
Proof.
  destruct b as [| z]; simpl.
  - exists x. split; [reflexivity | apply Qle_refl].
  - destruct (Py.lt x z) eqn:E.
    + exists z. split; [reflexivity |]. apply py_lt_true in E.
      apply Qlt_le_weak. exact E.
    + exists x. split; [reflexivity | apply Qle_refl].
Qed.

Lemma true_range_rows (l : list (Bar * pyfloat)) :
  exists trs,
    map (fun bc : Bar * pyfloat =>
           let (b, prev_close) := bc in
           fmax (fmax (Num (High b - Low b)) (abs_diff (High b) prev_close))
                (abs_diff (Low b) prev_close)) l
    = map Num trs
    /\ (Forall (fun bc => Low (fst bc) <= High (fst bc)) l ->
        Forall (fun q => 0 <= q) trs).
Proof.
  induction l as [| [b c] l (trs & IH & IHpos)].
  - exists []. split; [reflexivity | constructor].
  - destruct (fmax_num (High b - Low b) (abs_diff (High b) c)) as (y & Hy & Hxy).
    destruct (fmax_num y (abs_diff (Low b) c)) as (z & Hz & Hyz).
    exists (z :: trs). split.
    + cbn [map]. rewrite Hy, Hz, IH. reflexivity.
    + intro F. inversion F as [| ? ? Hb Hl]; subst. simpl in Hb.
      constructor; [| apply IHpos; exact Hl].
      apply Qle_trans with y; [| exact Hyz].
      apply Qle_trans with (High b - Low b); [| exact Hxy].
      unfold Qminus. rewrite <- Qle_minus_iff. exact Hb.
Qed.

Lemma true_range_numbers (data : list Bar) :
  exists trs,
    true_range data = map Num trs
    /\ List.length trs = List.length data
    /\ (Forall (fun b => Low b <= High b) data -> Forall (fun q => 0 <= q) trs).
Proof.
  destruct (true_range_rows (combine data (shift1 (map Close data))))
    as (trs & E & Hpos).
  exists trs. split; [exact E |]. split.
  - rewrite <- (true_range_length data). unfold true_range. rewrite E.
    now rewrite length_map.
  - intro F. apply Hpos. apply Forall_forall. intros [b c] Hin.
    apply in_combine_l in Hin. rewrite Forall_forall in F. exact (F b Hin).
Qed.

Lemma all_nums_numbers (qs : list Q) : all_nums (map Num qs) = Some qs.
Proof.
  induction qs as [| q qs IH]; simpl; [reflexivity |]. now rewrite IH.
Qed.

Lemma iloc_last_map_seq {A : Type} (f : nat -> A) (n : nat) :
  iloc_last (map f (seq 0 (S n))) = Py.Ok (f n).
Proof.
  unfold iloc_last. rewrite seq_S, map_app, rev_app_distr. reflexivity.
Qed.

(** The value [calculate_atr] returns when the history covers the window. *)
Lemma calculate_atr_value (data : list Bar) (period : nat) (trs : list Q) :
  true_range data = map Num trs ->
  (0 < period)%nat -> (period <= List.length data)%nat ->
  let window := skipn (List.length data - period) trs in
  List.length window = period
  /\ calculate_atr data period = Some (Num (Py.sum window / Py.len window)).
Proof.
  intros E Hp Hlen window.
  assert (Hl : List.length trs = List.length data).
  { rewrite <- (true_range_length data), E. now rewrite length_map. }
  assert (Hw : List.length window = period).
  { unfold window. rewrite length_skipn. lia. }
  split; [exact Hw |].
  unfold calculate_atr. destruct data as [| b data']; [simpl in Hlen; lia |].
  rewrite E. unfold rolling_mean. rewrite length_map, Hl.
  simpl List.length. rewrite iloc_last_map_seq. cbn [Py.bind Py.catch].
  do 2 f_equal.
  rewrite firstn_all2 by (rewrite length_map, Hl; simpl; lia).
  rewrite skipn_map.
  replace (S (List.length data') - period)%nat
    with (List.length (b :: data') - period)%nat by reflexivity.
  fold window. unfold window_mean.
  destruct period as [| k]; [lia |].
  rewrite length_map, Hw, Nat.ltb_irrefl, all_nums_numbers. reflexivity.
Qed.





End FullWindow.

(** X17.  With a window of at least one bar and a history at least as long
    as the window, [calculate_atr] returns a number, never NaN and never
    [None]: the mean of the last [period] true ranges. *)
Theorem calculate_atr_with_full_window (data : list MarketDataManager.Bar)
  (period : nat) :
  (0 < period)%nat -> (period <= List.length data)%nat ->
  exists window,
    List.length window = period
    /\ map MarketDataManager.Num window
       = skipn (List.length data - period) (MarketDataManager.true_range data)
    /\ MarketDataManager.calculate_atr data period
       = Some (MarketDataManager.Num (Py.sum window / Py.len window)).
Proof.
  intros Hp Hlen.
  destruct (true_range_numbers data) as (trs & E & _ & _).
  destruct (calculate_atr_value data period trs E Hp Hlen) as [Hw Hv].
  exists (skipn (List.length data - period) trs).
  split; [exact Hw |]. split; [| exact Hv].
  rewrite E. symmetry. apply skipn_map.
Qed.

Lemma calculate_atr_with_full_window_witness :
  let bar h l c :=
    {| MarketDataManager.High := h; MarketDataManager.Low := l;
       MarketDataManager.Close := c |} in
  let data := [bar 10 8 9; bar 11 9 10; bar 12 9 11] in
  exists window,
    List.length window = 2%nat
    /\ map MarketDataManager.Num window
       = skipn (3 - 2) (MarketDataManager.true_range data)
    /\ MarketDataManager.calculate_atr data 2
       = Some (MarketDataManager.Num (Py.sum window / Py.len window)).
Proof.
  intros bar data.
  apply (calculate_atr_with_full_window data 2); simpl; lia.
Defined.

(** ** The price cache *)

Section PriceCache.

Import MarketDataManager.

Lemma cache_get_set_same (cache : Cache) (symbol : string) (entry : CacheEntry) :
  cache_get (cache_set cache symbol entry) symbol = Some entry.
Proof.
  induction cache as [| [k v] cache IH]; simpl.
  - now rewrite String.eqb_refl.
  - destruct (String.eqb k symbol) eqn:E; simpl; rewrite E; [reflexivity | exact IH].
Qed.

Lemma cache_get_set_other (cache : Cache) (symbol other : string)
  (entry : CacheEntry) :
  other <> symbol ->
  cache_get (cache_set cache symbol entry) other = cache_get cache other.
Proof.
  intro Hne. induction cache as [| [k v] cache IH]; simpl.
  - assert (E : String.eqb symbol other = false)
      by (apply String.eqb_neq; congruence).
    now rewrite E.
  - destruct (String.eqb k symbol) eqn:E; simpl.
    + apply String.eqb_eq in E. subst k.
      assert (E' : String.eqb symbol other = false)
        by (apply String.eqb_neq; congruence).
      now rewrite E'.
    + destruct (String.eqb k other); [reflexivity | exact IH].
Qed.

End PriceCache.

(** X19.  A price that was just downloaded is served from the cache for the
    next 60 seconds.  When the cache has no entry for the symbol, or only one
    that is 60 seconds old or older, a successful download returns its price;
    a later call less than 60 seconds after it returns the same price and
    leaves the cache alone, whatever a download would give then. *)
Theorem downloaded_price_is_cached (cache : MarketDataManager.Cache)
  (symbol : string) (t t' p : Q) (later : MarketDataManager.History) :
  (forall e, MarketDataManager.cache_get cache symbol = Some e ->
             MarketDataManager.cache_timeout <= t - MarketDataManager.timestamp e) ->
  t' - t < MarketDataManager.cache_timeout ->
  let first := MarketDataManager.get_real_time_price cache symbol t
                 (MarketDataManager.HistoryClose p) in
  fst first = Some p
  /\ MarketDataManager.get_real_time_price (snd first) symbol t' later
     = (Some p, snd first).
Proof.
  intros Hold Hfresh first.
  assert (E : first = (Some p,
                       MarketDataManager.cache_set cache symbol
                         {| MarketDataManager.price := p;
                            MarketDataManager.timestamp := t |})).
  { unfold first, MarketDataManager.get_real_time_price.
    destruct (MarketDataManager.cache_get cache symbol) as [e |] eqn:G;
      [| reflexivity].
    specialize (Hold e eq_refl). apply py_lt_false in Hold. now rewrite Hold. }
  rewrite E. simpl. split; [reflexivity |].
  unfold MarketDataManager.get_real_time_price.
  rewrite cache_get_set_same. simpl.
  apply py_lt_true in Hfresh. now rewrite Hfresh.
Qed.

Lemma downloaded_price_is_cached_witness :
  let first := MarketDataManager.get_real_time_price [] "AAPL" 1000
                 (MarketDataManager.HistoryClose 150) in
  fst first = Some 150
  /\ MarketDataManager.get_real_time_price (snd first) "AAPL" 1059
       MarketDataManager.HistoryError
     = (Some 150, snd first).
Proof.
  intro first.
  apply (downloaded_price_is_cached [] "AAPL" 1000 1059 150
           MarketDataManager.HistoryError).
  - intros e H. discriminate.
  - reflexivity.
Defined.

(** X20.  A stale price is never returned and a failed download never
    touches the cache.  When the download raises or comes back empty the
    cache is left as it is, and a price is returned only if the cache holds
    one for that symbol that is less than 60 seconds old; otherwise the
    result is [None], even though an older price is in the cache.  Whatever
    the download gives, the entries of the other symbols are not changed. *)
Theorem failed_download_keeps_cache (cache : MarketDataManager.Cache)
  (symbol : string) (t : Q) (history : MarketDataManager.History) :
  let answer := MarketDataManager.get_real_time_price cache symbol t history in
  (forall other, other <> symbol ->
     MarketDataManager.cache_get (snd answer) other
     = MarketDataManager.cache_get cache other)
  /\ ((history = MarketDataManager.HistoryError
       \/ history = MarketDataManager.HistoryEmpty) ->
      snd answer = cache
      /\ forall p,
           fst answer = Some p <->
           exists e,
             MarketDataManager.cache_get cache symbol = Some e
             /\ MarketDataManager.price e = p
             /\ t - MarketDataManager.timestamp e < MarketDataManager.cache_timeout).
Proof.
  intro answer. split.
  - intros other Hne. unfold answer, MarketDataManager.get_real_time_price.
    destruct (MarketDataManager.cache_get cache symbol) as [e |];
      [destruct (Py.lt _ _); [reflexivity |] |];
      destruct history; simpl; try reflexivity;
      apply cache_get_set_other; exact Hne.
  - intro Hfail. unfold answer, MarketDataManager.get_real_time_price.
    destruct (MarketDataManager.cache_get cache symbol) as [e |] eqn:G.
    + destruct (Py.lt (t - MarketDataManager.timestamp e)
                      MarketDataManager.cache_timeout) eqn:F.
      * simpl. split; [reflexivity |]. intro p. split.
        -- intro H. injection H as <-. exists e.
           repeat split. apply py_lt_true. exact F.
        -- intros (e' & He' & <- & _). congruence.
      * destruct Hfail as [-> | ->]; simpl; (split; [reflexivity |]);
          intro p; (split; [discriminate |]);
          intros (e' & He' & _ & Hlt); injection He' as <-;
          apply py_lt_true in Hlt; congruence.
    + destruct Hfail as [-> | ->]; simpl; (split; [reflexivity |]);
        intro p; (split; [discriminate |]);
        intros (e' & He' & _); discriminate.
Qed.

Lemma failed_download_keeps_cache_witness :
  let cache := [("AAPL"%string,
                 {| MarketDataManager.price := 150;
                    MarketDataManager.timestamp := 1000 |})] in
  let answer := MarketDataManager.get_real_time_price cache "AAPL" 1060
                  MarketDataManager.HistoryError in
  snd answer = cache /\ fst answer = None.
Proof.
  intros cache answer.
  destruct (proj2 (failed_download_keeps_cache cache "AAPL" 1060
                     MarketDataManager.HistoryError) (or_introl eq_refl))
    as [H _].
  split; [exact H | reflexivity].
Defined.

(** ** More on the statistics *)

Section StatisticsFields.

Import StatisticsTab.







End StatisticsFields.



(** X24.  [calculate_statistics] never ends in its error branch ("Failed to
    calculate statistics"): every division of the body is guarded, also for
    trades without a stop or with the stop at the entry, which are left out
    of the average reward:risk ratio. *)
Theorem calculate_statistics_never_fails (trades : list StatisticsTab.Trade)
  (e : Py.exn) :
  StatisticsTab.calculate_statistics trades <> StatisticsTab.Failed e.
Proof.
  destruct trades as [| t rest].
  - discriminate.
  - destruct (calculate_statistics_shown (t :: rest)) as (s & Hs & _);
      [discriminate |].
    rewrite Hs. discriminate.
Qed.






(** ** The portfolio view *)

Section PortfolioView.

Import Portfolio PortfolioTracker.



End PortfolioView.



(** X28.  For an open position with a positive entry price and a positive
    quantity and a price that is not zero, [load_positions] lists one line,
    with the id and the quantity of the position; the line is tagged
    'profit' exactly when the price is above the entry for a Long position
    and below it for a Short one. *)
Theorem load_positions_line (position : Portfolio.Row) (price : Q) :
  0 < Portfolio.entry_price position ->
  (0 < Portfolio.quantity position)%Z ->
  Py.truthy price = true ->
  exists item,
    PortfolioTracker.load_positions [(position, Some price)] = ([item], None)
    /\ PortfolioTracker.item_id item = Portfolio.id position
    /\ PortfolioTracker.item_quantity item = Portfolio.quantity position
    /\ match Portfolio.trade_type position with
       | Portfolio.Long =>
           PortfolioTracker.item_tag item = PortfolioTracker.profit
           <-> Portfolio.entry_price position < price
       | Portfolio.Short =>
           PortfolioTracker.item_tag item = PortfolioTracker.profit
           <-> price < Portfolio.entry_price position
       end.
Proof.
  intros Hentry Hqty Hprice.
  set (e := Portfolio.entry_price position) in *.
  set (q := inject_Z (Portfolio.quantity position)).
  assert (Hq : 0 < q).
  { unfold q. change 0 with (inject_Z 0). rewrite <- Zlt_Qlt. exact Hqty. }
  assert (NZe : ~ e == 0) by (intro E; rewrite E in Hentry; discriminate).
  assert (NZq : ~ q == 0) by (intro E; rewrite E in Hq; discriminate).
  assert (NZ : ~ e * q == 0).
  { intro E. apply Qmult_integral in E. tauto. }
  assert (Sign : forall d, Py.gt (d * q) 0 = true <-> 0 < d).
  { intro d. rewrite py_gt_true. split; intro H.
    - destruct (Qlt_le_dec 0 d) as [Hd | Hd]; [exact Hd |]. exfalso.
      assert (Hle : d * q <= 0 * q)
        by (apply Qmult_le_compat_r; [exact Hd | apply Qlt_le_weak; exact Hq]).
      rewrite Qmult_0_l in Hle. exact (Qlt_not_le _ _ H Hle).
    - rewrite <- (Qmult_0_l q). apply Qmult_lt_compat_r; assumption. }
  assert (Tag : forall d,
    (if Py.gt (d * q) 0 then PortfolioTracker.profit else PortfolioTracker.loss)
    = PortfolioTracker.profit <-> 0 < d).
  { intro d. rewrite <- (Sign d). destruct (Py.gt (d * q) 0); split;
      try reflexivity; discriminate. }
  cbn [PortfolioTracker.load_positions]. rewrite Hprice. fold e q.
  destruct (Portfolio.trade_type position).
  - rewrite (truediv_ok _ _ NZ). eexists. split; [reflexivity |].
    cbn [PortfolioTracker.item_id PortfolioTracker.item_quantity
         PortfolioTracker.item_tag].
    split; [reflexivity |]. split; [reflexivity |].
    rewrite Tag. unfold Qminus. rewrite <- Qlt_minus_iff. reflexivity.
  - rewrite (truediv_ok _ _ NZ). eexists. split; [reflexivity |].
    cbn [PortfolioTracker.item_id PortfolioTracker.item_quantity
         PortfolioTracker.item_tag].
    split; [reflexivity |]. split; [reflexivity |].
    rewrite Tag. unfold Qminus. rewrite <- Qlt_minus_iff. reflexivity.
Qed.

Lemma load_positions_line_witness :
  let position :=
    PositionCalculator.open_row "TSLA" 100 105 90 10 1000 Portfolio.Short 1 in
  exists item,
    PortfolioTracker.load_positions [(position, Some 95)] = ([item], None)
    /\ PortfolioTracker.item_tag item = PortfolioTracker.profit.
Proof.
  intro position.
  destruct (load_positions_line position 95) as (item & H1 & _ & _ & H4);
    try reflexivity.
  exists item. split; [exact H1 |]. simpl in H4.
  apply H4. reflexivity.
Defined.
